(** * Clipboard Bridge: the room registry and the broadcast fan-out

    A shallow embedding of [server.py].  The module-level dictionary
    [rooms] and the messages written to web sockets are the state of a
    small state-and-exception monad; every handler of the server is a
    computation in that monad, written statement by statement after the
    Python source.

    What the environment decides (whether a write to a socket succeeds,
    what [receive_json] returns, what [time.time()] reads, which codes the
    random generator proposes) is an explicit argument of the handler.

    Each handler is run to completion: the interleaving of coroutines at
    [await] points is not part of this model. *)

From Stdlib Require Import ZArith NArith Ascii Floats.
From stdpp Require Import gmap strings list.

Set Warnings "-register-all".

Local Open Scope string_scope.
Local Open Scope Z_scope.
Local Open Scope list_scope.

(** ** Python values *)

(** The values [json.loads] produces and [send_json] serialises.  A parsed
    object is a [dict]; it is kept as the list of its items, read by key. *)
Inductive json : Type :=
| JNull
| JBool (b : bool)
| JInt (n : Z)
| JFloat (f : float)
| JStr (s : string)
| JArr (items : list json)
| JObj (fields : list (string * json)).

(** [bool(v)]: the test of an [if v:] statement. *)
Definition truthy (v : json) : bool :=
  match v with
  | JNull => false
  | JBool b => b
  | JInt n => negb (n =? 0)%Z
  | JFloat f => negb (PrimFloat.eqb f 0%float)
  | JStr s => negb (String.eqb s "")
  | JArr items => match items with [] => false | _ => true end
  | JObj fields => match fields with [] => false | _ => true end
  end.

(** [v == s] for a string literal [s]: only a [str] equals a [str]. *)
Definition eq_str (v : json) (s : string) : bool :=
  match v with
  | JStr t => String.eqb t s
  | _ => false
  end.

(** [d.get(key, default)] on the items of a dict. *)
Fixpoint dict_get (fields : list (string * json)) (key : string) (default : json) : json :=
  match fields with
  | [] => default
  | (k, v) :: rest => if String.eqb k key then v else dict_get rest key default
  end.

(** The exceptions the handlers meet. *)
Inductive exn : Type :=
| WebSocketDisconnect
| KeyError
| AttributeError
| HTTPException (status_code : Z) (detail : string)
| OtherError (name : string).

#[global] Instance exn_eq_dec : EqDecision exn.
Proof. solve_decision. Defined.

(** Connection handles: the identity of a [WebSocket] object. *)
Abbreviation conn := nat.

(** ** The registry and the wire *)

(** [rooms: Dict[str, Dict]], each value
    [{clients: set, last_content: str, created_at: float}]. *)
Record Room : Type := mkRoom {
  clients : gset conn;
  last_content : json;
  created_at : float
}.

(** The outcome of one call into the transport. *)
Inductive io_result : Type :=
| Done
| Fails (e : exn).

(** What the server did on a socket, in program order. *)
Inductive wire_event : Type :=
| EvAccept (c : conn)
| EvClose (c : conn) (code : Z) (reason : string)
| EvSend (c : conn) (msg : json) (res : io_result).

Record world : Type := mkWorld {
  rooms : gmap string Room;
  wire : list wire_event
}.

(** The transport as the environment presents it during one handler step:
    what a write to, or an accept of, each socket does. *)
Record transport : Type := mkTransport {
  tx_send : conn → io_result;
  tx_accept : conn → io_result
}.

(** ** The monad: state plus exceptions *)

Inductive result (A : Type) : Type :=
| Ok (a : A)
| Raise (e : exn).
Arguments Ok {A} a.
Arguments Raise {A} e.

Definition M (A : Type) : Type := world → result A * world.

Definition ret {A} (a : A) : M A := fun w => (Ok a, w).
Definition raise {A} (e : exn) : M A := fun w => (Raise e, w).
Definition bind {A B} (m : M A) (k : A → M B) : M B :=
  fun w => match m w with
           | (Ok a, w') => k a w'
           | (Raise e, w') => (Raise e, w')
           end.

(** [try: body except <any>: handler(e)] *)
Definition try_except {A} (body : M A) (handler : exn → M A) : M A :=
  fun w => match body w with
           | (Ok a, w') => (Ok a, w')
           | (Raise e, w') => handler e w'
           end.

#[global] Instance M_ret : MRet M := @ret.
#[global] Instance M_bind : MBind M := fun A B k m => bind m k.

(** [for x in xs: acc = body(acc, x)], for a loop that threads a local. *)
Fixpoint for_fold {A S} (xs : list A) (acc : S) (body : S → A → M S) : M S :=
  match xs with
  | [] => ret acc
  | x :: rest => (acc' ← body acc x; for_fold rest acc' body)
  end.

(** [for x in xs: body(x)] *)
Fixpoint for_each {A} (xs : list A) (body : A → M unit) : M unit :=
  match xs with
  | [] => ret tt
  | x :: rest => (body x ;; for_each rest body)
  end.

(** ** Primitive statements *)

(** [code in rooms] *)
Definition room_in (code : string) : M bool :=
  fun w => (Ok (bool_decide (is_Some (rooms w !! code))), w).

(** [rooms[code]] *)
Definition get_room (code : string) : M Room :=
  fun w => match rooms w !! code with
           | Some r => (Ok r, w)
           | None => (Raise KeyError, w)
           end.

(** An in-place update of the dict [rooms[code]]. *)
Definition update_room (code : string) (f : Room → Room) : M unit :=
  fun w => match rooms w !! code with
           | Some r => (Ok tt, mkWorld (<[code := f r]> (rooms w)) (wire w))
           | None => (Raise KeyError, w)
           end.

(** [rooms[code]["last_content"] = v] *)
Definition set_last_content (code : string) (v : json) : M unit :=
  update_room code (fun r => mkRoom (clients r) v (created_at r)).

(** [rooms[code]["clients"].add(c)] *)
Definition clients_add (code : string) (c : conn) : M unit :=
  update_room code (fun r => mkRoom ({[c]} ∪ clients r) (last_content r) (created_at r)).

(** [rooms[code]["clients"].discard(c)] *)
Definition clients_discard (code : string) (c : conn) : M unit :=
  update_room code (fun r => mkRoom (clients r ∖ {[c]}) (last_content r) (created_at r)).

(** [rooms[code]["clients"].remove(c)]: [set.remove] raises [KeyError] on
    an element that is not in the set. *)
Definition clients_remove (code : string) (c : conn) : M unit :=
  r ← get_room code;
  if bool_decide (c ∈ clients r) then clients_discard code c
  else raise KeyError.

Definition emit (ev : wire_event) : M unit :=
  fun w => (Ok tt, mkWorld (rooms w) (wire w ++ [ev])).

(** [await c.send_json(msg)] *)
Definition send_json (net : transport) (c : conn) (msg : json) : M unit :=
  emit (EvSend c msg (tx_send net c)) ;;
  match tx_send net c with
  | Done => ret tt
  | Fails e => raise e
  end.

(** [await c.accept()] *)
Definition ws_accept (net : transport) (c : conn) : M unit :=
  match tx_accept net c with
  | Done => emit (EvAccept c)
  | Fails e => raise e
  end.

(** [await c.close(code=..., reason=...)] *)
Definition ws_close (c : conn) (code : Z) (reason : string) : M unit :=
  emit (EvClose c code reason).

(** [{"type": "sync", "content": content}] *)
Definition sync_msg (content : json) : json :=
  JObj [("type", JStr "sync"); ("content", content)].

(** ** broadcast_to_room *)

(** One turn of the delivery loop: [dead] is the local [dead_clients]. *)
Definition deliver (net : transport) (content : json) (exclude : option conn)
    (dead : list conn) (client : conn) : M (list conn) :=
  if bool_decide (Some client ≠ exclude) then
    try_except
      (send_json net client (sync_msg content) ;; ret dead)
      (fun _ => ret (dead ++ [client]))
  else ret dead.

(** The function has no [return] statement with a value: it yields [None],
    here [tt].  The loop visits the members in the order [elements] lists
    them; Python fixes no order for a set, and nothing below depends on it. *)
Definition broadcast_to_room (net : transport) (room_code : string) (content : json)
    (exclude : option conn) : M unit :=
  present ← room_in room_code;
  if negb present then ret tt
  else
    r ← get_room room_code;
    dead_clients ← for_fold (elements (clients r)) [] (deliver net content exclude);
    for_each dead_clients (fun client => clients_discard room_code client).

(** ** cleanup_old_rooms *)

(** [list(rooms.items())] *)
Definition rooms_items : M (list (string * Room)) :=
  fun w => (Ok (map_to_list (rooms w)), w).

(** [del rooms[code]] *)
Definition del_room (code : string) : M unit :=
  fun w => match rooms w !! code with
           | Some _ => (Ok tt, mkWorld (delete code (rooms w)) (wire w))
           | None => (Raise KeyError, w)
           end.

(** [current_time - data["created_at"] > 86400] *)
Definition is_expired (current_time : float) (data : Room) : bool :=
  PrimFloat.ltb 86400%float (PrimFloat.sub current_time (created_at data)).

(** [now] is what [time.time()] reads. *)
Definition cleanup_old_rooms (now : float) : M unit :=
  current_time ← ret now;
  items ← rooms_items;
  let expired :=
    (filter (fun item => is_expired current_time (snd item)) items).*1 in
  for_each expired del_room.

(** ** create_room *)

(** [while room_code in rooms: room_code = generate_room_code()], with the
    codes the generator goes on to produce in [draws].  [None]: the codes
    listed are used up and the loop is still running. *)
Fixpoint regenerate (room_code : string) (draws : list string) : M (option string) :=
  taken ← room_in room_code;
  if (taken : bool) then
    match draws with
    | [] => ret None
    | next :: rest => regenerate next rest
    end
  else ret (Some room_code).

(** [rooms[code] = r] *)
Definition put_room (code : string) (r : Room) : M unit :=
  fun w => (Ok tt, mkWorld (<[code := r]> (rooms w)) (wire w)).

(** [now] and [stamp] are the two readings of [time.time()]; [first] and
    [draws] are the results of [generate_room_code()]. *)
Definition create_room (now stamp : float) (first : string) (draws : list string)
    : M (option json) :=
  cleanup_old_rooms now ;;
  found ← regenerate first draws;
  match found with
  | None => ret None
  | Some room_code =>
      put_room room_code (mkRoom ∅ (JStr "") stamp) ;;
      ret (Some (JObj [("room_code", JStr room_code)]))
  end.

(** ** sync_clipboard *)

Record ClipboardData : Type := mkClipboardData {
  room_code : string;
  content : string
}.

(** The local [room] is the dict [rooms[data.room_code]] itself, so the
    [len(room["clients"])] of the last line reads the set as the broadcast
    left it: it is read from the registry here. *)
Definition sync_clipboard (net : transport) (data : ClipboardData) : M json :=
  present ← room_in (room_code data);
  if negb present then raise (HTTPException 404 "Room not found")
  else
    set_last_content (room_code data) (JStr (content data)) ;;
    broadcast_to_room net (room_code data) (JStr (content data)) None ;;
    room ← get_room (room_code data);
    ret (JObj [("status", JStr "synced");
               ("devices", JInt (Z.of_nat (size (clients room))))]).

(** ** websocket_endpoint *)

(** Where the coroutine of one connection stands. *)
Inductive handler : Type :=
| Listening
| Returned.

(** What [await websocket.receive_json()] does: it returns the parsed
    text, or raises ([WebSocketDisconnect] when the peer is gone, another
    exception when the text is not JSON). *)
Inductive inbound : Type :=
| Received (data : json)
| RecvRaises (e : exn).

Definition receive_json (i : inbound) : M json :=
  match i with
  | Received data => ret data
  | RecvRaises e => raise e
  end.

(** [data.get(key, default)]: only a dict has the method. *)
Definition py_get (data : json) (key : string) (default : json) : M json :=
  match data with
  | JObj fields => ret (dict_get fields key default)
  | _ => raise AttributeError
  end.

(** [except WebSocketDisconnect: rooms[room_code]["clients"].remove(websocket)];
    any other exception leaves the coroutine. *)
Definition on_exception (room_code : string) (websocket : conn) (e : exn) : M handler :=
  match e with
  | WebSocketDisconnect => clients_remove room_code websocket ;; ret Returned
  | _ => raise e
  end.

(** From the entry of the coroutine to the head of [while True]. *)
Definition ws_connect (net : transport) (websocket : conn) (room_code : string)
    : M handler :=
  present ← room_in room_code;
  if negb present then
    ws_close websocket 1008 "Room not found" ;; ret Returned
  else
    ws_accept net websocket ;;
    clients_add room_code websocket ;;
    try_except
      (r ← get_room room_code;
       if truthy (last_content r) then
         r' ← get_room room_code;
         send_json net websocket (sync_msg (last_content r')) ;;
         ret Listening
       else ret Listening)
      (on_exception room_code websocket).

(** One turn of [while True], inside the [try]. *)
Definition ws_turn (net : transport) (websocket : conn) (room_code : string)
    (i : inbound) : M handler :=
  try_except
    (data ← receive_json i;
     ty ← py_get data "type" JNull;
     if eq_str ty "clipboard" then
       content ← py_get data "content" (JStr "");
       set_last_content room_code content ;;
       broadcast_to_room net room_code content (Some websocket) ;;
       ret Listening
     else ret Listening)
    (on_exception room_code websocket).

(** The loop over the messages that arrive, each with the transport as it
    is while that message is handled. *)
Fixpoint ws_loop (websocket : conn) (room_code : string)
    (arrivals : list (transport * inbound)) : M handler :=
  match arrivals with
  | [] => ret Listening
  | (net, i) :: rest =>
      h ← ws_turn net websocket room_code i;
      match h with
      | Listening => ws_loop websocket room_code rest
      | Returned => ret Returned
      end
  end.

Definition websocket_endpoint (net : transport) (websocket : conn) (room_code : string)
    (arrivals : list (transport * inbound)) : M handler :=
  h ← ws_connect net websocket room_code;
  match h with
  | Listening => ws_loop websocket room_code arrivals
  | Returned => ret Returned
  end.

(** ** room_status *)

(** A [str] is kept as the bytes of its UTF-8 encoding.  Its characters
    (code points) are as many as the bytes that are not continuation bytes,
    [0x80] to [0xBF]. *)
Definition is_continuation (c : ascii) : bool :=
  let n := N_of_ascii c in (128 <=? n)%N && (n <? 192)%N.

Definition code_points (s : string) : nat :=
  length (List.filter (fun c => negb (is_continuation c)) (String.list_ascii_of_string s)).

(** [len(v)]: a [str], a [list] and a [dict] have a length; [None], a
    [bool] and a number raise [TypeError].  A [str] counts its characters,
    a dict its keys. *)
Definition py_len (v : json) : M nat :=
  match v with
  | JStr s => ret (code_points s)
  | JArr items => ret (length items)
  | JObj fields => ret (length (remove_dups fields.*1))
  | _ => raise (OtherError "TypeError")
  end.

(** The response dict is built entry by entry: the size of the member set
    is taken before the length of the content. *)
Definition room_status (room_code : string) : M json :=
  present ← room_in room_code;
  if negb present then raise (HTTPException 404 "Room not found")
  else
    r ← get_room room_code;
    let devices_connected := size (clients r) in
    r' ← get_room room_code;
    last_content_length ← py_len (last_content r');
    ret (JObj [("room_code", JStr room_code);
               ("devices_connected", JInt (Z.of_nat devices_connected));
               ("last_content_length", JInt (Z.of_nat last_content_length))]).

(** ** generate_room_code *)

(** The alphabet of [base64.urlsafe_b64encode]. *)
Definition b64url_alphabet : list ascii :=
  String.list_ascii_of_string
    "ABCDEFGHIJKLMNOPQRSTUVWXYZabcdefghijklmnopqrstuvwxyz0123456789-_".

Definition b64url_char (i : N) : ascii :=
  nth (N.to_nat i) b64url_alphabet "="%char.

(** The six-bit groups of a byte string, three bytes to four groups, the
    last group of a short tail filled with zero bits: the digits of
    [urlsafe_b64encode(tok).rstrip(b"=")]. *)
Fixpoint b64_groups (tok : list N) : list N :=
  match tok with
  | b0 :: b1 :: b2 :: rest =>
      N.shiftr b0 2
      :: N.lor (N.shiftl (N.land b0 3) 4) (N.shiftr b1 4)
      :: N.lor (N.shiftl (N.land b1 15) 2) (N.shiftr b2 6)
      :: N.land b2 63
      :: b64_groups rest
  | [b0; b1] =>
      [N.shiftr b0 2;
       N.lor (N.shiftl (N.land b0 3) 4) (N.shiftr b1 4);
       N.shiftl (N.land b1 15) 2]
  | [b0] => [N.shiftr b0 2; N.shiftl (N.land b0 3) 4]
  | [] => []
  end.

(** [secrets.token_urlsafe(n)], given the [n] bytes [token_bytes(n)] drew. *)
Definition token_urlsafe (tok : list Byte.byte) : list ascii :=
  map b64url_char (b64_groups (map Byte.to_N tok)).

(** [c.upper()] for an ASCII character. *)
Definition upper_char (c : ascii) : ascii :=
  let n := N_of_ascii c in
  if (97 <=? n)%N && (n <=? 122)%N then ascii_of_N (n - 32) else c.

(** [secrets.token_urlsafe(4).upper()[:6]], given the four random bytes. *)
Definition generate_room_code (b0 b1 b2 b3 : Byte.byte) : string :=
  String.string_of_list_ascii (take 6 (map upper_char (token_urlsafe [b0; b1; b2; b3]))).

(** The characters a room code is made of. *)
Definition code_alphabet : list ascii :=
  String.list_ascii_of_string "ABCDEFGHIJKLMNOPQRSTUVWXYZ0123456789-_".

(** The values [len] accepts. *)
Definition sized (v : json) : bool :=
  match v with
  | JStr _ | JArr _ | JObj _ => true
  | _ => false
  end.

(** * Properties *)

(** ** Reading the wire *)

(** The messages written to socket [c], oldest first; a write is listed
    whether or not the transport accepted it. *)
Definition written_to (c : conn) (evs : list wire_event) : list json :=
  omap (fun ev => match ev with
                  | EvSend c' msg _ => if decide (c' = c) then Some msg else None
                  | _ => None
                  end) evs.

(** The messages socket [c] took: the writes that did not raise. *)
Definition delivered_to (c : conn) (evs : list wire_event) : list json :=
  omap (fun ev => match ev with
                  | EvSend c' msg Done => if decide (c' = c) then Some msg else None
                  | _ => None
                  end) evs.

(** A write to [c] raises. *)
Definition send_fails (net : transport) (c : conn) : Prop := tx_send net c ≠ Done.

#[global] Instance send_fails_dec net c : Decision (send_fails net c).
Proof.
  unfold send_fails. destruct (tx_send net c); [right | left]; congruence.
Defined.

(** The members a broadcast writes to, in the order of the iteration. *)
Definition targets (exclude : option conn) (members : gset conn) : list conn :=
  filter (fun c => Some c ≠ exclude) (elements members).

(** The members a broadcast collects in [dead_clients]. *)
Definition casualties (net : transport) (exclude : option conn) (members : gset conn)
    : list conn :=
  filter (send_fails net) (targets exclude members).

(** The write a broadcast performs on one member. *)
Definition attempt (net : transport) (content : json) (c : conn) : wire_event :=
  EvSend c (sync_msg content) (tx_send net c).

(** [r] with its member set replaced. *)
Definition with_clients (r : Room) (s : gset conn) : Room :=
  mkRoom s (last_content r) (created_at r).

(** Socket [c] is in the member set of room [code]. *)
Definition member_of (c : conn) (code : string) (w : world) : Prop :=
  ∃ r, rooms w !! code = Some r ∧ c ∈ clients r.

(** ** The server as a whole *)

(** What reaches the server: the two HTTP requests that write, the opening
    of a socket, and the arrival of one message (or of the disconnect) on a
    socket.  [room_status] and [home] only read. *)
Inductive request : Type :=
| CreateRoom (now stamp : float) (first : string) (draws : list string)
| SyncClipboard (net : transport) (data : ClipboardData)
| WsConnect (net : transport) (websocket : conn) (room_code : string)
| WsMessage (net : transport) (websocket : conn) (room_code : string) (i : inbound).

Definition serve (rq : request) (w : world) : world :=
  match rq with
  | CreateRoom now stamp first draws => snd (create_room now stamp first draws w)
  | SyncClipboard net data => snd (sync_clipboard net data w)
  | WsConnect net websocket room_code => snd (ws_connect net websocket room_code w)
  | WsMessage net websocket room_code i => snd (ws_turn net websocket room_code i w)
  end.

Definition run (history : list request) (w : world) : world :=
  foldl (fun w rq => serve rq w) w history.

(** The request opens socket [c]. *)
Definition opens (c : conn) (rq : request) : Prop :=
  match rq with
  | WsConnect _ websocket _ => websocket = c
  | _ => False
  end.

(** How one request may change membership and the wire: a socket is a
    member afterwards only if it was one before or the request opens it, and
    a socket that was a member nowhere is written to only by the request
    that opens it. *)
Definition step_ok (rq : request) (w w' : world) : Prop :=
  (∀ a code, member_of a code w' → member_of a code w ∨ opens a rq) ∧
  ∃ evs, wire w' = wire w ++ evs ∧
         ∀ a, (∀ code, ¬ member_of a code w) → ¬ opens a rq → written_to a evs = [].

(** The server before any request. *)
Definition boot : world := mkWorld ∅ [].

(** The two numbers a broadcast could report: the members whose write
    succeeded, and the members it collected in [dead_clients]. *)
Definition delivered_count (net : transport) (exclude : option conn) (members : gset conn)
    : nat :=
  length (filter (fun c => ¬ send_fails net c) (targets exclude members)).

Definition pruned_count (net : transport) (exclude : option conn) (members : gset conn)
    : nat :=
  length (casualties net exclude members).

(** The successful writes among some events. *)
Definition successes (evs : list wire_event) : nat :=
  length (omap (fun ev => match ev with
                          | EvSend c _ Done => Some c
                          | _ => None
                          end) evs).

(** The reading of the broadcast contract under which every member but the
    excluded one ends up with the message: each takes it once. *)
Definition reaches_all_but (net : transport) (code : string) (x : json) (b : conn)
    (w : world) : Prop :=
  ∀ r, rooms w !! code = Some r →
    ∃ evs, wire (snd (broadcast_to_room net code x (Some b) w)) = wire w ++ evs ∧
           (∀ a, a ∈ clients r → a ≠ b →
                 delivered_to a evs = [JObj [("type", JStr "sync"); ("content", x)]]) ∧
           delivered_to b evs = [].

(** The broadcast contract with a result that carries the two counts:
    some reading of the value returned yields them on every call. *)
Definition result_carries_counts : Prop :=
  ∃ read : result unit → nat * nat,
    ∀ net code x exclude w r, rooms w !! code = Some r →
      read (fst (broadcast_to_room net code x exclude w)) =
      (delivered_count net exclude (clients r), pruned_count net exclude (clients r)).

(** The sweep contract with a time-to-live [ttl]: older rooms go, the
    others stay as they are. *)
Definition sweep_respects (ttl : float) : Prop :=
  ∀ now w code r, rooms w !! code = Some r →
    let w' := snd (cleanup_old_rooms now w) in
    (PrimFloat.ltb ttl (PrimFloat.sub now (created_at r)) = true → rooms w' !! code = None) ∧
    (PrimFloat.leb (PrimFloat.sub now (created_at r)) ttl = true → rooms w' !! code = Some r).

(** The request is a room creation. *)
Definition creates (rq : request) : Prop :=
  match rq with
  | CreateRoom _ _ _ _ => True
  | _ => False
  end.

(** What the server is seen to put on a socket: an accept, a close with
    code 1008 and reason "Room not found", or a message
    [{"type": "sync", "content": ...}]. *)
Definition well_shaped (ev : wire_event) : Prop :=
  match ev with
  | EvAccept _ => True
  | EvClose _ code reason => code = 1008 ∧ reason = "Room not found"
  | EvSend _ msg _ => ∃ v, msg = JObj [("type", JStr "sync"); ("content", v)]
  end.

(** ** Sample data *)

(** Every write and every accept succeeds. *)
Definition healthy : transport := mkTransport (fun _ => Done) (fun _ => Done).

(** Writes to socket [bad] raise; everything else succeeds. *)
Definition broken (bad : conn) : transport :=
  mkTransport (fun c => if decide (c = bad) then Fails (OtherError "RuntimeError") else Done)
              (fun _ => Done).

Definition trio : Room := mkRoom {[1%nat; 2%nat; 3%nat]} (JStr "old") 1000%float.

Definition lobby : world := mkWorld {["AB12CD" := trio]} [].

(** A room is created at time 1000 and sockets 1 and 2 join it. *)
Definition two_joined : list request :=
  [CreateRoom 0 1000 "AB12CD" [];
   WsConnect healthy 1%nat "AB12CD";
   WsConnect healthy 2%nat "AB12CD"].

(** ** Running the monad *)

Ltac unfold_monad :=
  unfold mbind, mret, M_bind, M_ret, bind, ret, raise, try_except in *.

Lemma world_eta w : mkWorld (rooms w) (wire w) = w.
Proof. by destruct w. Qed.

Lemma room_eta r : mkRoom (clients r) (last_content r) (created_at r) = r.
Proof. by destruct r. Qed.

Lemma room_in_present code w r :
  rooms w !! code = Some r → room_in code w = (Ok true, w).
Proof.
  intros H. unfold room_in. rewrite bool_decide_eq_true_2; [done | by rewrite H].
Qed.

Lemma room_in_absent code w :
  rooms w !! code = None → room_in code w = (Ok false, w).
Proof.
  intros H. unfold room_in. rewrite bool_decide_eq_false_2; [done |].
  rewrite H. by intros [? ?].
Qed.

(** ** The delivery loop *)

Section Broadcast.
Context (net : transport) (content : json) (exclude : option conn).

Lemma deliver_loop (l : list conn) : ∀ dead w,
    for_fold l dead (deliver net content exclude) w =
    (Ok (dead ++ filter (send_fails net) (filter (fun c => Some c ≠ exclude) l)),
     mkWorld (rooms w)
             (wire w ++ map (attempt net content) (filter (fun c => Some c ≠ exclude) l))).
Proof.
    induction l as [|c l IH]; intros dead w; simpl.
    - unfold_monad. by rewrite !app_nil_r, world_eta.
    - unfold_monad. unfold deliver at 1.
      rewrite (filter_cons (fun c => Some c ≠ exclude)).
      destruct (decide (Some c ≠ exclude)) as [Hne|Heq].
      + rewrite bool_decide_eq_true_2 by done.
        unfold_monad. unfold send_json, emit. unfold_monad. simpl.
        rewrite (filter_cons (send_fails net)).
        destruct (decide (send_fails net c)) as [Hf|Hs]; unfold send_fails in *.
        * destruct (tx_send net c) eqn:Hc; [done |]. simpl.
          rewrite IH. simpl. unfold attempt at 2. rewrite Hc.
          by rewrite <- !app_assoc.
        * destruct (tx_send net c) eqn:Hc; [| exfalso; apply Hs; congruence]. simpl.
          rewrite IH. simpl. unfold attempt at 2. rewrite Hc.
          by rewrite <- !app_assoc.
      + rewrite bool_decide_eq_false_2 by done. unfold_monad. apply IH.
Qed.

Lemma discard_loop (code : string) (dead : list conn) : ∀ w r,
    rooms w !! code = Some r →
    for_each dead (fun client => clients_discard code client) w =
    (Ok tt,
     mkWorld (<[code := with_clients r (clients r ∖ list_to_set dead)]> (rooms w)) (wire w)).
Proof.
    induction dead as [|c dead IH]; intros w r Hr; simpl.
    - unfold_monad. unfold with_clients. rewrite difference_empty_L, room_eta.
      by rewrite insert_id, world_eta.
    - unfold_monad. unfold clients_discard at 1, update_room. rewrite Hr.
      erewrite IH; [| simpl; apply lookup_insert_eq]. simpl.
      rewrite insert_insert_eq. unfold with_clients. simpl.
      do 3 f_equal. f_equal. set_solver.
Qed.

  (** What a broadcast to an existing room does, in one equation. *)
Lemma broadcast_present code w r :
    rooms w !! code = Some r →
    broadcast_to_room net code content exclude w =
    (Ok tt,
     mkWorld (<[code := with_clients r (clients r ∖ list_to_set (casualties net exclude (clients r)))]>
                (rooms w))
             (wire w ++ map (attempt net content) (targets exclude (clients r)))).
Proof.
    intros Hr. unfold broadcast_to_room. unfold_monad.
    rewrite (room_in_present _ _ _ Hr). simpl.
    unfold get_room. rewrite Hr. rewrite deliver_loop. simpl.
    by erewrite discard_loop.
Qed.

Lemma broadcast_absent code w :
    rooms w !! code = None →
    broadcast_to_room net code content exclude w = (Ok tt, w).
Proof.
    intros Hr. unfold broadcast_to_room. unfold_monad.
    by rewrite (room_in_absent _ _ Hr).
Qed.
End Broadcast.

(** ** Facts about the wire *)

Lemma written_to_app c l1 l2 :
  written_to c (l1 ++ l2) = written_to c l1 ++ written_to c l2.
Proof. apply omap_app. Qed.

Lemma delivered_to_app c l1 l2 :
  delivered_to c (l1 ++ l2) = delivered_to c l1 ++ delivered_to c l2.
Proof. apply omap_app. Qed.

Lemma targets_NoDup exclude s : NoDup (targets exclude s).
Proof. apply NoDup_filter, NoDup_elements. Qed.

Lemma elem_of_targets exclude s c :
  c ∈ targets exclude s ↔ Some c ≠ exclude ∧ c ∈ s.
Proof. unfold targets. rewrite list_elem_of_filter, elem_of_elements. done. Qed.

Lemma elem_of_casualties net exclude s c :
  c ∈ casualties net exclude s ↔ send_fails net c ∧ Some c ≠ exclude ∧ c ∈ s.
Proof. unfold casualties. by rewrite list_elem_of_filter, elem_of_targets. Qed.

Section Attempts.
Context (net : transport) (content : json).

Lemma written_to_attempts_notin c (l : list conn) :
    c ∉ l → written_to c (map (attempt net content) l) = [].
Proof.
    induction l as [|x l IH]; intros Hc; [done |].
    apply not_elem_of_cons in Hc as [Hx Hl]. cbn.
    destruct (decide (x = c)); [congruence |]. by apply IH.
Qed.

  (** A duplicate-free list of targets gets one write each. *)
Lemma written_to_attempts c (l : list conn) :
    NoDup l →
    written_to c (map (attempt net content) l) =
    if decide (c ∈ l) then [sync_msg content] else [].
Proof.
    induction 1 as [|x l Hx Hnd IH]; [done |]. cbn.
    destruct (decide (x = c)) as [->|Hne].
    - rewrite decide_True by left.
      fold (written_to c (map (attempt net content) l)).
      by rewrite written_to_attempts_notin.
    - fold (written_to c (map (attempt net content) l)). rewrite IH.
      destruct (decide (c ∈ l)) as [Hin|Hin].
      + by rewrite decide_True by (by right).
      + rewrite decide_False; [done |].
        intros [->|?]%elem_of_cons; done.
Qed.

Lemma delivered_to_attempts_notin c (l : list conn) :
    c ∉ l → delivered_to c (map (attempt net content) l) = [].
Proof.
    induction l as [|x l IH]; intros Hc; [done |].
    apply not_elem_of_cons in Hc as [Hx Hl]. cbn.
    destruct (tx_send net x); [destruct (decide (x = c)); [congruence |] |]; by apply IH.
Qed.

Lemma delivered_to_attempts_fails c (l : list conn) :
    send_fails net c → delivered_to c (map (attempt net content) l) = [].
Proof.
    unfold send_fails. intros Hf. induction l as [|x l IH]; [done |]. cbn.
    destruct (tx_send net x) eqn:Hx; [| exact IH].
    destruct (decide (x = c)) as [->|Hne]; [done | exact IH].
Qed.

  (** A member of a duplicate-free list of targets whose write succeeds
      takes the message once. *)
Lemma delivered_to_attempts c (l : list conn) :
    NoDup l → c ∈ l → ¬ send_fails net c →
    delivered_to c (map (attempt net content) l) = [sync_msg content].
Proof.
    unfold send_fails. intros Hnd Hin Hok.
    induction Hnd as [|x l Hx Hnd IH]; [by apply elem_of_nil in Hin |]. cbn.
    fold (delivered_to c (map (attempt net content) l)).
    destruct (decide (x = c)) as [->|Hne].
    - rewrite delivered_to_attempts_notin by done.
      destruct (tx_send net c); [done | by exfalso; apply Hok].
    - apply elem_of_cons in Hin as [->|Hin]; [done |].
      destruct (tx_send net x); by apply IH.
Qed.
End Attempts.

(** ** The handlers, case by case *)

Lemma set_last_content_present code v w r :
  rooms w !! code = Some r →
  set_last_content code v w =
  (Ok tt, mkWorld (<[code := mkRoom (clients r) v (created_at r)]> (rooms w)) (wire w)).
Proof. intros Hr. unfold set_last_content, update_room. by rewrite Hr. Qed.

Lemma set_last_content_absent code v w :
  rooms w !! code = None → set_last_content code v w = (Raise KeyError, w).
Proof. intros Hr. unfold set_last_content, update_room. by rewrite Hr. Qed.

(** Storing [v] and broadcasting it: the common core of both entry points. *)
Lemma store_and_broadcast net code v exclude w r :
  rooms w !! code = Some r →
  (set_last_content code v ;; broadcast_to_room net code v exclude) w =
  (Ok tt,
   mkWorld (<[code := mkRoom (clients r ∖ list_to_set (casualties net exclude (clients r)))
                             v (created_at r)]> (rooms w))
           (wire w ++ map (attempt net v) (targets exclude (clients r)))).
Proof.
  intros Hr. unfold_monad. rewrite (set_last_content_present _ _ _ _ Hr).
  erewrite broadcast_present; [| simpl; apply lookup_insert_eq].
  simpl. by rewrite insert_insert_eq.
Qed.

Lemma sync_clipboard_present net data w r :
  rooms w !! room_code data = Some r →
  let members := clients r ∖ list_to_set (casualties net None (clients r)) in
  sync_clipboard net data w =
  (Ok (JObj [("status", JStr "synced"); ("devices", JInt (Z.of_nat (size members)))]),
   mkWorld (<[room_code data := mkRoom members (JStr (content data)) (created_at r)]> (rooms w))
           (wire w ++ map (attempt net (JStr (content data))) (targets None (clients r)))).
Proof.
  intros Hr members. unfold sync_clipboard.
  pose proof (store_and_broadcast net (room_code data) (JStr (content data)) None w r Hr) as Hsb.
  unfold_monad. rewrite (room_in_present _ _ _ Hr). simpl.
  destruct (set_last_content (room_code data) (JStr (content data)) w) as [[[]|e] w1];
    [| discriminate].
  rewrite Hsb. unfold get_room. simpl. by rewrite lookup_insert_eq.
Qed.

Lemma sync_clipboard_absent net data w :
  rooms w !! room_code data = None →
  sync_clipboard net data w = (Raise (HTTPException 404 "Room not found"), w).
Proof.
  intros Hr. unfold sync_clipboard. unfold_monad.
  by rewrite (room_in_absent _ _ Hr).
Qed.

(** ** The expiry sweep *)

Lemma del_loop (l : list string) : ∀ w,
  NoDup l → (∀ k, k ∈ l → is_Some (rooms w !! k)) →
  for_each l del_room w =
  (Ok tt, mkWorld (foldl (fun m k => delete k m) (rooms w) l) (wire w)).
Proof.
  induction l as [|k l IH]; intros w Hnd Hin; simpl.
  - unfold_monad. by rewrite world_eta.
  - apply NoDup_cons in Hnd as [Hk Hnd]. unfold_monad. unfold del_room at 1.
    destruct (Hin k) as [r Hr]; [left |]. rewrite Hr. rewrite IH; [done | done |].
    intros k' Hk'. simpl. rewrite lookup_delete_ne by (intros ->; done).
    apply Hin. by right.
Qed.

Lemma lookup_delete_all {A} (l : list string) : ∀ (m : gmap string A) k,
  foldl (fun m k => delete k m) m l !! k = if decide (k ∈ l) then None else m !! k.
Proof.
  induction l as [|x l IH]; intros m k.
  - case_decide as Hin; [by apply elem_of_nil in Hin | done].
  - cbn [foldl]. rewrite IH. repeat case_decide; try done.
    + exfalso. set_solver.
    + assert (x = k) as -> by set_solver. apply lookup_delete_eq.
    + apply lookup_delete_ne. set_solver.
Qed.

Lemma NoDup_filter_fst {A B} (P : A * B → Prop) `{!∀ x, Decision (P x)} (l : list (A * B)) :
  NoDup l.*1 → NoDup (filter P l).*1.
Proof.
  induction l as [|[a b] l IH]; [done |]. simpl. intros [Ha Hnd]%NoDup_cons.
  rewrite filter_cons. destruct (decide (P (a, b))); [| by apply IH].
  simpl. apply NoDup_cons. split; [| by apply IH].
  intros ([a' b'] & -> & [_ Hin]%list_elem_of_filter)%list_elem_of_fmap.
  apply Ha. apply list_elem_of_fmap. by exists (a', b').
Qed.

Lemma expired_codes now (m : gmap string Room) code :
  code ∈ (filter (fun item => is_expired now (snd item)) (map_to_list m)).*1 ↔
  ∃ r, m !! code = Some r ∧ is_expired now r = true.
Proof.
  rewrite list_elem_of_fmap. split.
  - intros ([k r] & -> & [He Hin]%list_elem_of_filter). exists r. simpl in *.
    split; [by apply elem_of_map_to_list | by apply Is_true_true].
  - intros (r & Hr & He). exists (code, r). split; [done |].
    apply list_elem_of_filter. split; [by apply Is_true_true | by apply elem_of_map_to_list].
Qed.

(** The sweep never raises, writes nothing, and leaves a registry whose
    entries are the entries that are not expired. *)
Lemma cleanup_old_rooms_run now w :
  ∃ kept,
    cleanup_old_rooms now w = (Ok tt, mkWorld kept (wire w)) ∧
    ∀ code, kept !! code =
            match rooms w !! code with
            | Some r => if is_expired now r then None else Some r
            | None => None
            end.
Proof.
  unfold cleanup_old_rooms, rooms_items. unfold_monad.
  eexists. split.
  - apply del_loop.
    + apply NoDup_filter_fst, NoDup_fst_map_to_list.
    + intros k (r & Hr & _)%expired_codes. by rewrite Hr.
  - intros code. rewrite lookup_delete_all.
    destruct (decide (code ∈ _)) as [Hin|Hin].
    + apply expired_codes in Hin as (r & -> & ->). done.
    + destruct (rooms w !! code) as [r|] eqn:Hr; [| done].
      destruct (is_expired now r) eqn:He; [| done].
      exfalso. apply Hin. apply expired_codes. by exists r.
Qed.

(** Comparison of floats: [x <= y] excludes [y < x]. *)
Lemma float_leb_not_ltb (x y : float) :
  PrimFloat.leb x y = true → PrimFloat.ltb y x = false.
Proof.
  rewrite leb_spec, ltb_spec. unfold SFleb, SFltb.
  destruct (Prim2SF x) as [sx|sx| |sx mx ex], (Prim2SF y) as [sy|sy| |sy my ey];
    simpl; try done;
    repeat match goal with s : bool |- _ => destruct s end; simpl; try done.
  all: rewrite (Z.compare_antisym ex ey).
  all: destruct (ex ?= ey)%Z eqn:He; simpl; try done.
  all: rewrite (ZC4 my mx).
  all: by destruct (Pos.compare_cont Eq mx my).
Qed.

(** ** The socket handler, case by case *)

Lemma clients_remove_member code c w r :
  rooms w !! code = Some r → c ∈ clients r →
  clients_remove code c w =
  (Ok tt, mkWorld (<[code := with_clients r (clients r ∖ {[c]})]> (rooms w)) (wire w)).
Proof.
  intros Hr Hc. unfold clients_remove, get_room. unfold_monad. rewrite Hr.
  rewrite bool_decide_eq_true_2 by done.
  unfold clients_discard, update_room. by rewrite Hr.
Qed.

Lemma clients_remove_stranger code c w r :
  rooms w !! code = Some r → c ∉ clients r →
  clients_remove code c w = (Raise KeyError, w).
Proof.
  intros Hr Hc. unfold clients_remove, get_room. unfold_monad. rewrite Hr.
  by rewrite bool_decide_eq_false_2 by done.
Qed.

Lemma clients_remove_no_room code c w :
  rooms w !! code = None → clients_remove code c w = (Raise KeyError, w).
Proof.
  intros Hr. unfold clients_remove, get_room. unfold_monad. by rewrite Hr.
Qed.

(** A message that is a dict whose ["type"] is not ["clipboard"]. *)
Lemma ws_turn_other_type net ws code fields w :
  eq_str (dict_get fields "type" JNull) "clipboard" = false →
  ws_turn net ws code (Received (JObj fields)) w = (Ok Listening, w).
Proof.
  intros Hty. unfold ws_turn, receive_json, py_get. unfold_monad. by rewrite Hty.
Qed.

(** A message that is not a dict. *)
Lemma ws_turn_not_dict net ws code data w :
  (∀ fields, data ≠ JObj fields) →
  ws_turn net ws code (Received data) w = (Raise AttributeError, w).
Proof.
  intros Hd. unfold ws_turn, receive_json, py_get. unfold_monad.
  destruct data; try done. by destruct (Hd fields).
Qed.

(** [receive_json] raises something other than [WebSocketDisconnect]. *)
Lemma ws_turn_recv_error net ws code e w :
  e ≠ WebSocketDisconnect →
  ws_turn net ws code (RecvRaises e) w = (Raise e, w).
Proof.
  intros He. unfold ws_turn, receive_json. unfold_monad. by destruct e.
Qed.

Lemma ws_turn_disconnect net ws code w :
  ws_turn net ws code (RecvRaises WebSocketDisconnect) w =
  (clients_remove code ws ;; mret Returned) w.
Proof. done. Qed.

(** A clipboard message for a room that is still there. *)
Lemma ws_turn_clipboard net ws code fields w r :
  eq_str (dict_get fields "type" JNull) "clipboard" = true →
  rooms w !! code = Some r →
  let v := dict_get fields "content" (JStr "") in
  ws_turn net ws code (Received (JObj fields)) w =
  (Ok Listening,
   mkWorld (<[code := mkRoom (clients r ∖ list_to_set (casualties net (Some ws) (clients r)))
                             v (created_at r)]> (rooms w))
           (wire w ++ map (attempt net v) (targets (Some ws) (clients r)))).
Proof.
  intros Hty Hr v.
  pose proof (store_and_broadcast net code v (Some ws) w r Hr) as Hsb.
  unfold ws_turn, receive_json, py_get. unfold_monad. rewrite Hty. fold v.
  destruct (set_last_content code v w) as [[[]|e] w1] eqn:Hset.
  - by rewrite Hsb.
  - by rewrite (set_last_content_present _ _ _ _ Hr) in Hset.
Qed.

(** A clipboard message for a room that is gone. *)
Lemma ws_turn_clipboard_no_room net ws code fields w :
  eq_str (dict_get fields "type" JNull) "clipboard" = true →
  rooms w !! code = None →
  ws_turn net ws code (Received (JObj fields)) w = (Raise KeyError, w).
Proof.
  intros Hty Hr. unfold ws_turn, receive_json, py_get. unfold_monad. rewrite Hty.
  by rewrite (set_last_content_absent _ _ _ Hr).
Qed.

Lemma ws_connect_no_room net c code w :
  rooms w !! code = None →
  ws_connect net c code w =
  (Ok Returned, mkWorld (rooms w) (wire w ++ [EvClose c 1008 "Room not found"])).
Proof.
  intros Hr. unfold ws_connect. unfold_monad. by rewrite (room_in_absent _ _ Hr).
Qed.

Lemma ws_connect_refused net c code w r e :
  rooms w !! code = Some r → tx_accept net c = Fails e →
  ws_connect net c code w = (Raise e, w).
Proof.
  intros Hr Ha. unfold ws_connect. unfold_monad. rewrite (room_in_present _ _ _ Hr).
  simpl. unfold ws_accept. by rewrite Ha.
Qed.

(** An accepted socket: the registry gains [c] (and loses it again only
    when the replay raises [WebSocketDisconnect]); the wire gains the
    accept and, for a content that tests true, the replay. *)
Lemma ws_connect_accepted net c code w r :
  rooms w !! code = Some r → tx_accept net c = Done →
  ∃ res s,
    ws_connect net c code w =
    (res,
     mkWorld (<[code := with_clients r s]> (rooms w))
             (wire w ++ EvAccept c ::
                if truthy (last_content r)
                then [EvSend c (sync_msg (last_content r)) (tx_send net c)] else [])) ∧
    s ⊆ {[c]} ∪ clients r ∧
    (res = Ok Listening → s = {[c]} ∪ clients r) ∧
    (res = Ok Listening ∨ truthy (last_content r) = true ∧ tx_send net c ≠ Done).
Proof.
  intros Hr Ha. unfold ws_connect. unfold_monad. rewrite (room_in_present _ _ _ Hr).
  simpl. unfold ws_accept, emit. rewrite Ha.
  unfold clients_add, update_room. simpl. rewrite Hr.
  unfold get_room. simpl. rewrite lookup_insert_eq. simpl.
  destruct (truthy (last_content r)) eqn:Ht.
  - cbn [rooms wire]. rewrite lookup_insert_eq. unfold send_json, emit. unfold_monad. simpl.
    destruct (tx_send net c) as [|e] eqn:Hs; simpl.
    + exists (Ok Listening), ({[c]} ∪ clients r).
      rewrite <- app_assoc. simpl. split_and!; [done | done | done | by left].
    + destruct e; simpl;
        try (eexists (Raise _), ({[c]} ∪ clients r);
             rewrite <- app_assoc; simpl;
             split_and!; [done | done | done | by right]).
      unfold clients_remove, get_room. unfold_monad. simpl.
      rewrite lookup_insert_eq. rewrite bool_decide_eq_true_2 by set_solver.
      unfold clients_discard, update_room. simpl. rewrite lookup_insert_eq. simpl.
      rewrite insert_insert_eq.
      exists (Ok Returned), (({[c]} ∪ clients r) ∖ {[c]}).
      rewrite <- app_assoc. simpl. split_and!; [done | set_solver | done | by right].
  - exists (Ok Listening), ({[c]} ∪ clients r). split_and!; [done | done | done | by left].
Qed.

(** ** One request at a time *)

Lemma step_ok_refl rq w : step_ok rq w w.
Proof.
  split; [by left |]. exists []. by rewrite app_nil_r.
Qed.

Lemma member_of_insert a code code' r (m : gmap string Room) x :
  member_of a code (mkWorld (<[code' := r]> m) x) →
  (code = code' ∧ a ∈ clients r) ∨ ∃ r0, m !! code = Some r0 ∧ a ∈ clients r0.
Proof.
  intros (r' & Hr' & Ha). simpl in Hr'.
  destruct (decide (code' = code)) as [->|Hne].
  - rewrite lookup_insert_eq in Hr'. left. by simplify_eq.
  - rewrite lookup_insert_ne in Hr' by done. right. by exists r'.
Qed.

(** The shape both broadcasting entry points leave behind. *)
Lemma step_ok_broadcast rq net code v exclude w r s t :
  rooms w !! code = Some r → s ⊆ clients r →
  step_ok rq w (mkWorld (<[code := mkRoom s v t]> (rooms w))
                        (wire w ++ map (attempt net v) (targets exclude (clients r)))).
Proof.
  intros Hr Hs. split.
  - intros a code' [[-> Ha]|Hm]%member_of_insert; left; [| exact Hm].
    exists r. split; [done |]. simpl in Ha. set_solver.
  - eexists. split; [done |]. intros a Hno _.
    apply written_to_attempts_notin. intros [_ Ha]%elem_of_targets.
    apply (Hno code). by exists r.
Qed.

Lemma regenerate_reads (draws : list string) : ∀ first w,
  ∃ found, regenerate first draws w = (Ok found, w) ∧
           ∀ code, found = Some code → rooms w !! code = None.
Proof.
  induction draws as [|next rest IH]; intros first w; simpl; unfold_monad;
    unfold room_in; simpl; case_bool_decide as Hin.
  - by exists None.
  - exists (Some first). split; [done |]. intros ? [= <-].
    by apply eq_None_not_Some.
  - apply IH.
  - exists (Some first). split; [done |]. intros ? [= <-].
    by apply eq_None_not_Some.
Qed.

Lemma serve_step rq w : step_ok rq w (serve rq w).
Proof.
  destruct rq as [now stamp first draws | net data | net c code | net c code i]; simpl.
  - (* create_room *)
    unfold create_room. unfold_monad.
    destruct (cleanup_old_rooms_run now w) as (kept & -> & Hkept).
    destruct (regenerate_reads draws first (mkWorld kept (wire w))) as (found & -> & _).
    assert (Hback : ∀ a code, member_of a code (mkWorld kept (wire w)) → member_of a code w).
    { intros a code (r & Hr & Ha). simpl in Hr. rewrite Hkept in Hr.
      destruct (rooms w !! code) as [r0|] eqn:Hr0; [| done].
      destruct (is_expired now r0); [done |]. simplify_eq. by exists r. }
    destruct found as [code'|]; simpl.
    + split.
      * intros a code [[_ Ha]|Hm]%member_of_insert; [set_solver | left; by apply Hback].
      * exists []. by rewrite app_nil_r.
    + split; [intros a code Hm; left; by apply Hback |].
      exists []. by rewrite app_nil_r.
  - (* sync_clipboard *)
    destruct (rooms w !! room_code data) as [r|] eqn:Hr.
    + rewrite (sync_clipboard_present _ _ _ _ Hr). simpl.
      apply step_ok_broadcast; [done | set_solver].
    + rewrite (sync_clipboard_absent _ _ _ Hr). apply step_ok_refl.
  - (* ws_connect *)
    destruct (rooms w !! code) as [r|] eqn:Hr.
    + destruct (tx_accept net c) as [|e] eqn:Ha.
      * destruct (ws_connect_accepted net c code w r Hr Ha) as (res & s & -> & Hs & _).
        simpl. split.
        -- intros a code' [[-> Hin]|Hm]%member_of_insert; [| left; exact Hm].
           simpl in Hin. destruct (decide (a = c)) as [->|Hne]; [by right |].
           left. exists r. split; [done | set_solver].
        -- eexists. split; [done |]. intros a _ Hopen. simpl in Hopen. cbn.
           destruct (truthy (last_content r)); [| done]. cbn.
           by rewrite decide_False by done.
      * rewrite (ws_connect_refused _ _ _ _ _ _ Hr Ha). apply step_ok_refl.
    + rewrite (ws_connect_no_room _ _ _ _ Hr). simpl. split; [by left |].
      by eexists.
  - (* ws_turn *)
    destruct i as [data | e].
    + destruct data as [| | | | | |fields];
        try (rewrite ws_turn_not_dict by done; apply step_ok_refl).
      destruct (eq_str (dict_get fields "type" JNull) "clipboard") eqn:Hty.
      * destruct (rooms w !! code) as [r|] eqn:Hr.
        -- rewrite (ws_turn_clipboard _ _ _ _ _ _ Hty Hr). simpl.
           apply step_ok_broadcast; [done | set_solver].
        -- rewrite (ws_turn_clipboard_no_room _ _ _ _ _ Hty Hr). apply step_ok_refl.
      * rewrite (ws_turn_other_type _ _ _ _ _ Hty). apply step_ok_refl.
    + destruct (decide (e = WebSocketDisconnect)) as [->|He].
      * rewrite ws_turn_disconnect. unfold_monad.
        destruct (rooms w !! code) as [r|] eqn:Hr.
        -- destruct (decide (c ∈ clients r)) as [Hc|Hc].
           ++ rewrite (clients_remove_member _ _ _ _ Hr Hc). simpl. split.
              ** intros a code' [[-> Hin]|Hm]%member_of_insert; left; [| exact Hm].
                 exists r. split; [done |]. simpl in Hin. set_solver.
              ** exists []. by rewrite app_nil_r.
           ++ rewrite (clients_remove_stranger _ _ _ _ Hr Hc). apply step_ok_refl.
        -- rewrite (clients_remove_no_room _ _ _ Hr). apply step_ok_refl.
      * rewrite ws_turn_recv_error by done. apply step_ok_refl.
Qed.

(** ** Histories *)

(** Membership comes only from opening the socket. *)
Lemma run_members a code history : ∀ w,
  Forall (fun rq => ¬ opens a rq) history →
  member_of a code (run history w) → member_of a code w.
Proof.
  induction history as [|rq history IH]; intros w Hall Hm; [done |].
  apply Forall_cons in Hall as [Hrq Hall]. simpl in Hm.
  apply IH in Hm; [| done].
  destruct (serve_step rq w) as [Hmem _].
  by destruct (Hmem _ _ Hm).
Qed.

(** A socket that is a member nowhere, and is not opened, is not written to. *)
Lemma run_quiet a history : ∀ w,
  (∀ code, ¬ member_of a code w) →
  Forall (fun rq => ¬ opens a rq) history →
  written_to a (wire (run history w)) = written_to a (wire w).
Proof.
  induction history as [|rq history IH]; intros w Hno Hall; [done |].
  apply Forall_cons in Hall as [Hrq Hall]. simpl.
  destruct (serve_step rq w) as [Hmem (evs & Hw & Hq)].
  rewrite IH; [| | done].
  - rewrite Hw, written_to_app, (Hq a Hno Hrq). by rewrite app_nil_r.
  - intros code Hm. destruct (Hmem _ _ Hm) as [Hm'|Ho]; [by apply (Hno code) | done].
Qed.

Lemma boot_empty a code : ¬ member_of a code boot.
Proof. by intros (r & Hr & _). Qed.

(** ** Counting *)

Lemma casualties_NoDup net exclude s : NoDup (casualties net exclude s).
Proof. apply NoDup_filter, targets_NoDup. Qed.

Lemma size_after_pruning net exclude (s : gset conn) :
  size (s ∖ list_to_set (casualties net exclude s)) = (size s - pruned_count net exclude s)%nat.
Proof.
  rewrite size_difference.
  - unfold pruned_count. by rewrite size_list_to_set by apply casualties_NoDup.
  - intros c Hc. apply elem_of_list_to_set, elem_of_casualties in Hc. tauto.
Qed.

Lemma successes_attempts net x (l : list conn) :
  successes (map (attempt net x) l) = length (filter (fun c => ¬ send_fails net c) l).
Proof.
  unfold successes. induction l as [|c l IH]; [done |].
  rewrite filter_cons.
  destruct (decide (¬ send_fails net c)) as [Hok|Hf]; unfold send_fails in *; cbn;
    destruct (tx_send net c) eqn:Hc; simpl.
  - by f_equal.
  - by destruct Hok.
  - destruct Hf. by intros H.
  - done.
Qed.

(** ** Two scenarios, run *)

(** Two sockets have joined; a push of ["hello"] answers with two devices
    and writes the sync message to both. *)
Example push_reaches_both :
  let w := run two_joined boot in
  let out := sync_clipboard healthy (mkClipboardData "AB12CD" "hello") w in
  fst out = Ok (JObj [("status", JStr "synced"); ("devices", JInt 2)]) ∧
  written_to 1%nat (wire (snd out))
  = [JObj [("type", JStr "sync"); ("content", JStr "hello")]] ∧
  written_to 2%nat (wire (snd out))
  = [JObj [("type", JStr "sync"); ("content", JStr "hello")]].
Proof. vm_compute. done. Qed.

(** Socket 1 sends a clipboard message: socket 2 is written to, socket 1
    is not, and the room keeps the content. *)
Example clipboard_reaches_the_other :
  let w := run two_joined boot in
  let msg := Received (JObj [("type", JStr "clipboard"); ("content", JStr "world")]) in
  let out := ws_turn healthy 1%nat "AB12CD" msg w in
  fst out = Ok Listening ∧
  written_to 2%nat (wire (snd out))
  = [JObj [("type", JStr "sync"); ("content", JStr "world")]] ∧
  written_to 1%nat (wire (snd out)) = [] ∧
  last_content <$> rooms (snd out) !! "AB12CD" = Some (JStr "world").
Proof. vm_compute. done. Qed.

(** * The claims *)

(** C1. For an existing room, [sync_clipboard] (the content push) stores
    the pushed content as the room's [last_content], runs
    [broadcast_to_room] on it with nothing excluded, and answers with the
    number of members the room has once that broadcast has pruned the
    sockets whose write failed. *)
Theorem sync_clipboard_pushes_content net data w r :
  rooms w !! room_code data = Some r →
  let code := room_code data in
  let pushed := JStr (content data) in
  let stored := snd (set_last_content code pushed w) in
  let w' := snd (sync_clipboard net data w) in
  w' = snd (broadcast_to_room net code pushed None stored) ∧
  ∃ r', rooms w' !! code = Some r' ∧
        last_content r' = pushed ∧
        (∀ c, c ∈ clients r' ↔ c ∈ clients r ∧ ¬ send_fails net c) ∧
        fst (sync_clipboard net data w) =
          Ok (JObj [("status", JStr "synced");
                    ("devices", JInt (Z.of_nat (size (clients r'))))]).
Proof.
  intros Hr code pushed stored w'. subst stored w'.
  rewrite (sync_clipboard_present _ _ _ _ Hr).
  rewrite (set_last_content_present _ _ _ _ Hr).
  erewrite broadcast_present; [| simpl; apply lookup_insert_eq]. simpl.
  rewrite insert_insert_eq. split; [done |].
  eexists. split; [apply lookup_insert_eq |]. simpl. split_and!; [done | | done].
  intros c. rewrite elem_of_difference, elem_of_list_to_set, elem_of_casualties.
  split; [| tauto]. intros [Hc Hn]. split; [done |]. intros Hf. apply Hn. done.
Qed.

Lemma sync_clipboard_pushes_content_witness :
  rooms lobby !! "AB12CD" = Some trio ∧
  ∃ r', rooms (snd (sync_clipboard (broken 1) (mkClipboardData "AB12CD" "hello") lobby))
          !! "AB12CD" = Some r' ∧
        last_content r' = JStr "hello" ∧
        (3%nat ∈ clients r' ∧ 1%nat ∉ clients r').
Proof.
  assert (H : rooms lobby !! room_code (mkClipboardData "AB12CD" "hello") = Some trio)
    by reflexivity.
  split; [exact H |].
  destruct (sync_clipboard_pushes_content (broken 1) _ lobby trio H)
    as (_ & r' & Hr' & Hlc & Hmem & _).
  exists r'. split_and!; [exact Hr' | exact Hlc | |].
  - apply Hmem. split; [by vm_compute | by vm_compute; intros H'; apply H'].
  - intros H1%Hmem. destruct H1 as [_ Hok]. apply Hok. by vm_compute.
Defined.

(** C5. A content update for a code that is not in the registry raises
    the 404 "Room not found" error and leaves the whole state as it was:
    every room keeps its members, its content and its creation time, and
    nothing is written. *)
Theorem sync_clipboard_unknown_room net data w :
  rooms w !! room_code data = None →
  fst (sync_clipboard net data w) = Raise (HTTPException 404 "Room not found") ∧
  snd (sync_clipboard net data w) = w ∧
  ∀ code r, rooms w !! code = Some r →
            rooms (snd (sync_clipboard net data w)) !! code = Some r.
Proof.
  intros Hr. unfold sync_clipboard. unfold_monad.
  rewrite (room_in_absent _ _ Hr). simpl. done.
Qed.

Lemma sync_clipboard_unknown_room_witness :
  rooms lobby !! "ZZZZZZ" = None ∧
  fst (sync_clipboard healthy (mkClipboardData "ZZZZZZ" "hello") lobby)
  = Raise (HTTPException 404 "Room not found") ∧
  rooms (snd (sync_clipboard healthy (mkClipboardData "ZZZZZZ" "hello") lobby)) !! "AB12CD"
  = Some trio.
Proof.
  assert (H : rooms lobby !! room_code (mkClipboardData "ZZZZZZ" "hello") = None)
    by reflexivity.
  split; [exact H |].
  destruct (sync_clipboard_unknown_room healthy _ lobby H) as (Hres & _ & Hkeep).
  split; [exact Hres |]. apply Hkeep. reflexivity.
Defined.

(** C2, as amended.  A broadcast of [x] that excludes [b] writes [x]
    exactly once to every member other than [b] and never writes to [b].
    A member whose write succeeds thereby takes [x] exactly once; a member
    whose write raises takes nothing. *)
Theorem broadcast_writes_once net code x b w r :
  rooms w !! code = Some r →
  ∃ evs, wire (snd (broadcast_to_room net code x (Some b) w)) = wire w ++ evs ∧
         (∀ a, a ∈ clients r → a ≠ b →
               written_to a evs = [JObj [("type", JStr "sync"); ("content", x)]] ∧
               (¬ send_fails net a →
                delivered_to a evs = [JObj [("type", JStr "sync"); ("content", x)]]) ∧
               (send_fails net a → delivered_to a evs = [])) ∧
         written_to b evs = [] ∧ delivered_to b evs = [].
Proof.
  intros Hr. rewrite (broadcast_present _ _ _ _ _ _ Hr). simpl.
  eexists. split; [done |].
  assert (Hb : b ∉ targets (Some b) (clients r)).
  { intros [Hne _]%elem_of_targets. by apply Hne. }
  split_and!.
  - intros a Ha Hab.
    assert (Hin : a ∈ targets (Some b) (clients r)).
    { apply elem_of_targets. split; [congruence | done]. }
    split_and!.
    + rewrite written_to_attempts by apply targets_NoDup. by rewrite decide_True.
    + intros Hok. apply delivered_to_attempts; [apply targets_NoDup | done | done].
    + apply delivered_to_attempts_fails.
  - by apply written_to_attempts_notin.
  - by apply delivered_to_attempts_notin.
Qed.

Lemma broadcast_writes_once_witness :
  rooms lobby !! "AB12CD" = Some trio ∧
  ∃ evs, wire (snd (broadcast_to_room (broken 1) "AB12CD" (JStr "X") (Some 2%nat) lobby))
         = wire lobby ++ evs ∧
         written_to 3%nat evs = [JObj [("type", JStr "sync"); ("content", JStr "X")]] ∧
         written_to 2%nat evs = [].
Proof.
  assert (H : rooms lobby !! "AB12CD" = Some trio) by reflexivity.
  split; [exact H |].
  destruct (broadcast_writes_once (broken 1) "AB12CD" (JStr "X") 2%nat lobby trio H)
    as (evs & Hw & Hmem & Hb & _).
  exists evs. split_and!; [exact Hw | | exact Hb].
  apply Hmem; [by vm_compute | lia].
Defined.

(** C2 fails as stated: in a room with members 1, 2 and 3, a broadcast
    that excludes 2 while the write to 1 raises does not deliver to 1. *)
Lemma broadcast_misses_failing_member :
  ¬ reaches_all_but (broken 1) "AB12CD" (JStr "X") 2%nat lobby.
Proof.
  intros H. destruct (H trio eq_refl) as (evs & Hw & Hall & _).
  assert (H1 : delivered_to 1%nat evs
               = [JObj [("type", JStr "sync"); ("content", JStr "X")]]).
  { apply Hall; [by vm_compute | lia]. }
  simpl in Hw. subst evs. vm_compute in H1. discriminate H1.
Qed.

(** C8, as amended.  Every broadcast returns no value ([None]) and
    raises nothing.  The two counts are to be read off its effects: the
    writes that succeeded number the targets whose write did not raise, and
    the room shrinks by the number of targets whose write raised.  For a
    code that is not in the registry nothing is written and nothing
    changes. *)
Theorem broadcast_counts_are_effects net code x exclude w :
  let out := broadcast_to_room net code x exclude w in
  fst out = Ok tt ∧
  ∃ evs, wire (snd out) = wire w ++ evs ∧
         match rooms w !! code with
         | Some r =>
             successes evs = delivered_count net exclude (clients r) ∧
             ∃ r', rooms (snd out) !! code = Some r' ∧
                   size (clients r') =
                   (size (clients r) - pruned_count net exclude (clients r))%nat
         | None => evs = [] ∧ snd out = w
         end.
Proof.
  destruct (rooms w !! code) as [r|] eqn:Hr; simpl.
  - rewrite (broadcast_present _ _ _ _ _ _ Hr). simpl. split; [done |].
    eexists. split; [done |]. split; [apply successes_attempts |].
    eexists. split; [apply lookup_insert_eq |]. simpl. apply size_after_pruning.
  - rewrite (broadcast_absent _ _ _ _ _ Hr). simpl. split; [done |].
    exists []. by rewrite app_nil_r.
Qed.

(** C8 fails as stated: the value returned is the same whether three
    writes succeed and nobody is pruned or two succeed and one member is
    pruned, so no counts can be read off it. *)
Lemma broadcast_returns_no_counts : ¬ result_carries_counts.
Proof.
  intros (read & Hread).
  assert (Hl : rooms lobby !! "AB12CD" = Some trio) by reflexivity.
  pose proof (Hread healthy "AB12CD" (JStr "X") None lobby trio Hl) as H1.
  pose proof (Hread (broken 1) "AB12CD" (JStr "X") None lobby trio Hl) as H2.
  rewrite (broadcast_present _ _ _ _ _ _ Hl) in H1.
  rewrite (broadcast_present _ _ _ _ _ _ Hl) in H2. simpl in H1, H2.
  rewrite H1 in H2. vm_compute in H2. discriminate H2.
Qed.

(** For a string, testing true is being non-empty. *)
Lemma truthy_str s : truthy (JStr s) = true ↔ s ≠ "".
Proof.
  simpl. rewrite negb_true_iff. split.
  - intros H ->. by rewrite String.eqb_refl in H.
  - intros H. by apply String.eqb_neq.
Qed.

(** C3. Socket [c] is opened on an existing room, after any history in
    which it was not opened before.  Nothing has been written to [c] until
    then.  The join writes to [c] exactly one message,
    [{"type": "sync", "content": last_content}], when [last_content] is
    non-empty (tests true), and no message when it is empty; so that replay
    is the first message on [c].  For a string, to test true is to be
    other than [""]. *)
Theorem replay_on_join history net c code r :
  Forall (fun rq => ¬ opens c rq) history →
  rooms (run history boot) !! code = Some r →
  tx_accept net c = Done →
  let before := run history boot in
  let after := snd (ws_connect net c code before) in
  written_to c (wire before) = [] ∧
  wire after =
    wire before ++ EvAccept c ::
      (if truthy (last_content r)
       then [EvSend c (JObj [("type", JStr "sync"); ("content", last_content r)])
                    (tx_send net c)]
       else []) ∧
  written_to c (wire after) =
    (if truthy (last_content r)
     then [JObj [("type", JStr "sync"); ("content", last_content r)]] else []) ∧
  (∀ s, last_content r = JStr s → (truthy (last_content r) = true ↔ s ≠ "")).
Proof.
  intros Hall Hr Ha before after.
  assert (Hquiet : written_to c (wire before) = []).
  { unfold before. rewrite run_quiet; [done | apply boot_empty | done]. }
  destruct (ws_connect_accepted net c code before r Hr Ha) as (res & s & Heq & _).
  subst after. rewrite Heq. simpl. split_and!; [done | done | |].
  - rewrite written_to_app, Hquiet. cbn.
    destruct (truthy (last_content r)); [| done]. cbn. by rewrite decide_True.
  - intros str ->. apply truthy_str.
Qed.

Lemma replay_on_join_witness :
  let history := [CreateRoom 0 0 "AB12CD" [];
                  SyncClipboard healthy (mkClipboardData "AB12CD" "hello")] in
  rooms (run history boot) !! "AB12CD" = Some (mkRoom ∅ (JStr "hello") 0%float) ∧
  written_to 7%nat (wire (snd (ws_connect healthy 7%nat "AB12CD" (run history boot))))
  = [JObj [("type", JStr "sync"); ("content", JStr "hello")]].
Proof.
  intros history.
  assert (Hall : Forall (fun rq => ¬ opens 7%nat rq) history).
  { repeat constructor; simpl; tauto. }
  assert (Hr : rooms (run history boot) !! "AB12CD" = Some (mkRoom ∅ (JStr "hello") 0%float))
    by (vm_compute; reflexivity).
  assert (Ha : tx_accept healthy 7%nat = Done) by reflexivity.
  split; [exact Hr |].
  exact (proj1 (proj2 (proj2 (replay_on_join history healthy 7%nat "AB12CD" _ Hall Hr Ha)))).
Defined.

Lemma broadcast_skips_stranger net code x exclude a w :
  ¬ member_of a code w →
  ∃ evs, wire (snd (broadcast_to_room net code x exclude w)) = wire w ++ evs ∧
         written_to a evs = [].
Proof.
  intros Hno. destruct (rooms w !! code) as [r|] eqn:Hr.
  - rewrite (broadcast_present _ _ _ _ _ _ Hr). simpl. eexists. split; [done |].
    apply written_to_attempts_notin. intros [_ Ha]%elem_of_targets.
    apply Hno. by exists r.
  - rewrite (broadcast_absent _ _ _ _ _ Hr). exists []. by rewrite app_nil_r.
Qed.

(** C4. Member [a] is a target of a broadcast and the write to [a]
    raises.  The broadcast still returns normally; when it returns [a] is
    no longer a member of the room; and for as long as [a] is not opened
    again it stays out of the room, so that no later broadcast to the room
    writes to [a].  If [a] was a member of this room only, nothing at all
    is written to [a] afterwards. *)
Theorem failed_member_is_pruned net code x exclude w r a :
  rooms w !! code = Some r → a ∈ clients r → Some a ≠ exclude → send_fails net a →
  let w1 := snd (broadcast_to_room net code x exclude w) in
  fst (broadcast_to_room net code x exclude w) = Ok tt ∧
  ¬ member_of a code w1 ∧
  ∀ history, Forall (fun rq => ¬ opens a rq) history →
    let later := run history w1 in
    ¬ member_of a code later ∧
    (∀ net' x' exclude',
        ∃ evs, wire (snd (broadcast_to_room net' code x' exclude' later)) = wire later ++ evs ∧
               written_to a evs = []) ∧
    ((∀ code', code' ≠ code → ¬ member_of a code' w) →
     written_to a (wire later) = written_to a (wire w1)).
Proof.
  intros Hr Ha Hex Hf w1. subst w1.
  rewrite (broadcast_present _ _ _ _ _ _ Hr). simpl.
  set (w1 := mkWorld _ _).
  assert (Hgone : ¬ member_of a code w1).
  { intros (r' & Hr' & Hin). unfold w1 in Hr'. simpl in Hr'.
    rewrite lookup_insert_eq in Hr'. simplify_eq. simpl in Hin.
    apply elem_of_difference in Hin as [_ Hin]. apply Hin.
    apply elem_of_list_to_set, elem_of_casualties. done. }
  split_and!; [done | done |].
  intros history Hall. set (later := run history w1).
  assert (Hlater : ¬ member_of a code later).
  { intros Hm. apply Hgone. by apply (run_members a code history). }
  split_and!; [done | |].
  - intros net' x' exclude'. by apply broadcast_skips_stranger.
  - intros Honly. apply run_quiet; [| done].
    intros code' Hm. destruct (decide (code' = code)) as [->|Hne]; [done |].
    apply (Honly code' Hne). destruct Hm as (r' & Hr' & Hin).
    unfold w1 in Hr'. simpl in Hr'. rewrite lookup_insert_ne in Hr' by done.
    by exists r'.
Qed.

Lemma failed_member_is_pruned_witness :
  (rooms lobby !! "AB12CD" = Some trio ∧ 1%nat ∈ clients trio ∧
   Some 1%nat ≠ Some 2%nat ∧ send_fails (broken 1) 1%nat) ∧
  ¬ member_of 1%nat "AB12CD"
      (snd (broadcast_to_room (broken 1) "AB12CD" (JStr "X") (Some 2%nat) lobby)).
Proof.
  assert (Hr : rooms lobby !! "AB12CD" = Some trio) by reflexivity.
  assert (Ha : 1%nat ∈ clients trio) by (by vm_compute).
  assert (Hex : Some 1%nat ≠ Some 2%nat) by discriminate.
  assert (Hf : send_fails (broken 1) 1%nat) by (by vm_compute).
  split; [done |].
  exact (proj1 (proj2 (failed_member_is_pruned (broken 1) "AB12CD" (JStr "X") (Some 2%nat)
                         lobby trio 1%nat Hr Ha Hex Hf))).
Defined.

Lemma dict_get_missing fields key default :
  key ∉ fields.*1 → dict_get fields key default = default.
Proof.
  induction fields as [|[k v] fields IH]; [done |]. simpl.
  intros [Hk Hrest]%not_elem_of_cons.
  destruct (String.eqb k key) eqn:Heq; [| by apply IH].
  apply String.eqb_eq in Heq. congruence.
Qed.

(** C10. A message that is a dict with ["type"] equal to ["clipboard"]
    and without a ["content"] key is handled without error: the room's
    [last_content] becomes the empty string, [{"type": "sync", "content": ""}]
    is written once to every member other than the sender and not to the
    sender, and a socket that joins next gets no replay. *)
Theorem clipboard_without_content net ws code fields w r :
  eq_str (dict_get fields "type" JNull) "clipboard" = true →
  "content" ∉ fields.*1 →
  rooms w !! code = Some r →
  let out := ws_turn net ws code (Received (JObj fields)) w in
  fst out = Ok Listening ∧
  ∃ r' evs,
    rooms (snd out) !! code = Some r' ∧ last_content r' = JStr "" ∧
    wire (snd out) = wire w ++ evs ∧
    (∀ c, c ∈ clients r → c ≠ ws →
          written_to c evs = [JObj [("type", JStr "sync"); ("content", JStr "")]]) ∧
    written_to ws evs = [] ∧
    (∀ net' c', tx_accept net' c' = Done →
       wire (snd (ws_connect net' c' code (snd out))) = wire (snd out) ++ [EvAccept c']).
Proof.
  intros Hty Hno Hr out. subst out.
  rewrite (ws_turn_clipboard _ _ _ _ _ _ Hty Hr).
  rewrite (dict_get_missing _ _ _ Hno). simpl. split; [done |].
  set (r' := mkRoom _ _ _). set (w' := mkWorld _ _).
  assert (Hr' : rooms w' !! code = Some r') by apply lookup_insert_eq.
  exists r'. eexists. split_and!; [done | done | done | | |].
  - intros c Hc Hne. rewrite written_to_attempts by apply targets_NoDup.
    rewrite decide_True; [done |]. apply elem_of_targets. split; [congruence | done].
  - apply written_to_attempts_notin. intros [Hne _]%elem_of_targets. by apply Hne.
  - intros net' c' Ha.
    destruct (ws_connect_accepted net' c' code w' r' Hr' Ha) as (res & s & -> & _).
    done.
Qed.

Lemma clipboard_without_content_witness :
  let fields := [("type", JStr "clipboard")] in
  (eq_str (dict_get fields "type" JNull) "clipboard" = true ∧
   ("content" ∉ fields.*1) ∧ rooms lobby !! "AB12CD" = Some trio) ∧
  fst (ws_turn healthy 1%nat "AB12CD" (Received (JObj fields)) lobby) = Ok Listening.
Proof.
  intros fields.
  assert (Hty : eq_str (dict_get fields "type" JNull) "clipboard" = true) by reflexivity.
  assert (Hno : "content" ∉ fields.*1).
  { simpl. intros [H|H]%elem_of_cons; [discriminate H | by apply elem_of_nil in H]. }
  assert (Hr : rooms lobby !! "AB12CD" = Some trio) by reflexivity.
  split; [done |].
  exact (proj1 (clipboard_without_content healthy 1%nat "AB12CD" fields lobby trio Hty Hno Hr)).
Defined.

(** C9, as amended.  The time-to-live of the sweep is the constant 86400
    seconds.  For every registry and every reading [now] of the clock, the
    sweep removes the rooms with [now - created_at > 86400] and leaves every
    other room, in particular every room with [now - created_at <= 86400],
    exactly as it was, whatever its members; it adds no room and writes
    nothing. *)
Theorem cleanup_removes_day_old_rooms now w code r :
  rooms w !! code = Some r →
  let out := cleanup_old_rooms now w in
  let age := PrimFloat.sub now (created_at r) in
  fst out = Ok tt ∧ wire (snd out) = wire w ∧
  (PrimFloat.ltb 86400 age = true → rooms (snd out) !! code = None) ∧
  (PrimFloat.ltb 86400 age = false → rooms (snd out) !! code = Some r) ∧
  (PrimFloat.leb age 86400 = true → rooms (snd out) !! code = Some r) ∧
  (∀ code', rooms w !! code' = None → rooms (snd out) !! code' = None).
Proof.
  intros Hr out age. subst out.
  destruct (cleanup_old_rooms_run now w) as (kept & -> & Hkept). simpl.
  assert (Hcode : kept !! code = if is_expired now r then None else Some r).
  { by rewrite Hkept, Hr. }
  unfold is_expired in Hcode. fold age in Hcode.
  split_and!; [done | done | | | |].
  - intros He. by rewrite Hcode, He.
  - intros He. by rewrite Hcode, He.
  - intros Hle. by rewrite Hcode, (float_leb_not_ltb _ _ Hle).
  - intros code' Hnone. by rewrite Hkept, Hnone.
Qed.

Lemma cleanup_removes_day_old_rooms_witness :
  let w := run [CreateRoom 0 1000 "AB12CD" []] boot in
  rooms w !! "AB12CD" = Some (mkRoom ∅ (JStr "") 1000%float) ∧
  rooms (snd (cleanup_old_rooms 87400%float w)) !! "AB12CD"
  = Some (mkRoom ∅ (JStr "") 1000%float) ∧
  rooms (snd (cleanup_old_rooms 87401%float w)) !! "AB12CD" = None.
Proof.
  intros w.
  assert (Hr : rooms w !! "AB12CD" = Some (mkRoom ∅ (JStr "") 1000%float))
    by (vm_compute; reflexivity).
  split; [exact Hr |]. split.
  - destruct (cleanup_removes_day_old_rooms 87400%float w "AB12CD" _ Hr)
      as (_ & _ & _ & _ & Hkeep & _).
    apply Hkeep. reflexivity.
  - destruct (cleanup_removes_day_old_rooms 87401%float w "AB12CD" _ Hr)
      as (_ & _ & Hgo & _).
    apply Hgo. reflexivity.
Defined.

(** C9 fails as stated: the sweep takes no time-to-live.  With a
    time-to-live of 10 seconds, a room created at 1000 and swept at 2000 is
    older than that and is still there. *)
Lemma sweep_ignores_other_ttl : ¬ sweep_respects 10%float.
Proof.
  intros H.
  destruct (H 2000%float lobby "AB12CD" trio eq_refl) as [Hgo _].
  specialize (Hgo eq_refl). vm_compute in Hgo. discriminate Hgo.
Qed.

(** C6: the code at the failing inputs.  Sockets 1 and 2 have joined a
    room.  Either a content push finds the write to socket 1 raising and
    prunes it, or the room is swept when another room is created a day
    later; then the disconnect of socket 1 arrives.  The [remove] of the
    [except] branch raises [KeyError] out of the handler, in both cases. *)
Theorem leave_raises_when_already_gone :
  let pruned :=
    run (two_joined ++ [SyncClipboard (broken 1) (mkClipboardData "AB12CD" "hello")]) boot in
  let swept := run (two_joined ++ [CreateRoom 90000 90000 "ZZ99ZZ" []]) boot in
  (∃ r, rooms pruned !! "AB12CD" = Some r ∧ 1%nat ∉ clients r) ∧
  ws_turn healthy 1%nat "AB12CD" (RecvRaises WebSocketDisconnect) pruned
  = (Raise KeyError, pruned) ∧
  rooms swept !! "AB12CD" = None ∧
  ws_turn healthy 1%nat "AB12CD" (RecvRaises WebSocketDisconnect) swept
  = (Raise KeyError, swept).
Proof.
  intros pruned swept.
  assert (Hp : ∃ r, rooms pruned !! "AB12CD" = Some r ∧ 1%nat ∉ clients r).
  { eexists. split; [by vm_compute |]. by vm_compute. }
  assert (Hs : rooms swept !! "AB12CD" = None) by (by vm_compute).
  split_and!; [done | | done |].
  - destruct Hp as (r & Hr & Hout). rewrite ws_turn_disconnect. unfold_monad.
    by rewrite (clients_remove_stranger _ _ _ _ Hr Hout).
  - rewrite ws_turn_disconnect. unfold_monad.
    by rewrite (clients_remove_no_room _ _ _ Hs).
Qed.

(** C7: the code at the failing inputs.  Socket 1 has joined a room.  A
    message that is JSON but not a dict makes [data.get] raise
    [AttributeError], and a text that is not JSON makes [receive_json]
    raise; neither is caught, so the exception leaves the handler, the
    messages that follow are not read, and the socket is still listed as a
    member.  A dict of another type is passed over and the handler goes
    on. *)
Theorem non_dict_message_ends_handler :
  let w := run two_joined boot in
  let clip := Received (JObj [("type", JStr "clipboard"); ("content", JStr "new")]) in
  member_of 1%nat "AB12CD" w ∧
  ws_turn healthy 1%nat "AB12CD" (Received (JArr [JInt 1; JInt 2])) w
  = (Raise AttributeError, w) ∧
  ws_turn healthy 1%nat "AB12CD" (Received (JStr "hello")) w
  = (Raise AttributeError, w) ∧
  ws_turn healthy 1%nat "AB12CD" (RecvRaises (OtherError "JSONDecodeError")) w
  = (Raise (OtherError "JSONDecodeError"), w) ∧
  ws_loop 1%nat "AB12CD"
    [(healthy, Received (JArr [JInt 1; JInt 2])); (healthy, clip)] w
  = (Raise AttributeError, w) ∧
  ws_turn healthy 1%nat "AB12CD" (Received (JObj [("type", JStr "ping")])) w
  = (Ok Listening, w).
Proof.
  intros w clip. split_and!.
  - eexists. split; [by vm_compute |]. by vm_compute.
  - by apply ws_turn_not_dict.
  - by apply ws_turn_not_dict.
  - by apply ws_turn_recv_error.
  - simpl. unfold_monad. by rewrite ws_turn_not_dict.
  - by apply ws_turn_other_type.
Qed.

(** * Further properties of the handlers *)

(** ** room_status *)

(** X1. [room_status] only reads: whatever it answers or raises, the
    registry and the wire are as before; for a code that is not in the
    registry it raises the 404 "Room not found" error. *)
Theorem room_status_only_reads code w :
  snd (room_status code w) = w ∧
  (rooms w !! code = None →
   fst (room_status code w) = Raise (HTTPException 404 "Room not found")).
Proof.
  unfold room_status. unfold_monad.
  destruct (rooms w !! code) as [r|] eqn:Hr.
  - rewrite (room_in_present _ _ _ Hr). simpl. unfold get_room.
    rewrite Hr. cbn [fst snd]. rewrite Hr.
    split; [| done]. by destruct (last_content r).
  - rewrite (room_in_absent _ _ Hr). done.
Qed.

Lemma room_status_only_reads_witness :
  rooms lobby !! "ZZZZZZ" = None ∧
  fst (room_status "ZZZZZZ" lobby) = Raise (HTTPException 404 "Room not found").
Proof.
  assert (H : rooms lobby !! "ZZZZZZ" = None) by reflexivity.
  split; [exact H |]. exact (proj2 (room_status_only_reads "ZZZZZZ" lobby) H).
Defined.

(** X2. For a room whose content is a string, [room_status] answers with
    the code, the number of members and the length of the content, counted
    in characters (a character outside ASCII counts once, however many
    bytes encode it); the content itself is not in the answer. *)
Theorem room_status_reports_length code w r s :
  rooms w !! code = Some r → last_content r = JStr s →
  fst (room_status code w) =
  Ok (JObj [("room_code", JStr code);
            ("devices_connected", JInt (Z.of_nat (size (clients r))));
            ("last_content_length", JInt (Z.of_nat (code_points s)))]).
Proof.
  intros Hr Hs. unfold room_status. unfold_monad.
  rewrite (room_in_present _ _ _ Hr). simpl. unfold get_room.
  rewrite Hr. cbn [fst snd]. rewrite Hr. by rewrite Hs.
Qed.

Lemma room_status_reports_length_witness :
  let priced := mkRoom {[1%nat; 2%nat]} (JStr "5 €") 1000%float in
  let shop := mkWorld {["AB12CD" := priced]} [] in
  (rooms shop !! "AB12CD" = Some priced ∧ last_content priced = JStr "5 €") ∧
  fst (room_status "AB12CD" shop) =
  Ok (JObj [("room_code", JStr "AB12CD"); ("devices_connected", JInt 2);
            ("last_content_length", JInt 3)]).
Proof.
  intros priced shop.
  assert (Hr : rooms shop !! "AB12CD" = Some priced) by reflexivity.
  assert (Hs : last_content priced = JStr "5 €") by reflexivity.
  split; [exact (conj Hr Hs) |].
  rewrite (room_status_reports_length "AB12CD" shop priced "5 €" Hr Hs).
  vm_compute. reflexivity.
Defined.

(** X3. The socket handler stores the ["content"] of a clipboard message
    as it comes.  When it is a number, a boolean or [null], the room status
    of that room raises [TypeError] from then on, since [len] does not
    apply. *)
Theorem unsized_content_breaks_room_status net ws code fields w r :
  eq_str (dict_get fields "type" JNull) "clipboard" = true →
  sized (dict_get fields "content" (JStr "")) = false →
  rooms w !! code = Some r →
  let w' := snd (ws_turn net ws code (Received (JObj fields)) w) in
  fst (ws_turn net ws code (Received (JObj fields)) w) = Ok Listening ∧
  room_status code w' = (Raise (OtherError "TypeError"), w').
Proof.
  intros Hty Hsz Hr w'. subst w'.
  rewrite (ws_turn_clipboard _ _ _ _ _ _ Hty Hr). simpl. split; [done |].
  unfold room_status. unfold_monad.
  erewrite room_in_present; [| simpl; apply lookup_insert_eq]. simpl.
  unfold get_room. cbn [rooms wire]. rewrite lookup_insert_eq. cbn [rooms wire].
  rewrite lookup_insert_eq. cbn [last_content].
  by destruct (dict_get fields "content" (JStr "")).
Qed.

Lemma unsized_content_breaks_room_status_witness :
  let fields := [("type", JStr "clipboard"); ("content", JInt 42)] in
  (eq_str (dict_get fields "type" JNull) "clipboard" = true ∧
   sized (dict_get fields "content" (JStr "")) = false ∧
   rooms lobby !! "AB12CD" = Some trio) ∧
  fst (room_status "AB12CD" (snd (ws_turn healthy 1%nat "AB12CD" (Received (JObj fields)) lobby)))
  = Raise (OtherError "TypeError").
Proof.
  intros fields.
  assert (Hty : eq_str (dict_get fields "type" JNull) "clipboard" = true) by reflexivity.
  assert (Hsz : sized (dict_get fields "content" (JStr "")) = false) by reflexivity.
  assert (Hr : rooms lobby !! "AB12CD" = Some trio) by reflexivity.
  split; [done |].
  destruct (unsized_content_breaks_room_status healthy 1%nat "AB12CD" fields lobby trio
              Hty Hsz Hr) as [_ H].
  exact (f_equal fst H).
Defined.

(** ** Clipboard messages *)

(** X4. A message of type ["clipboard"] on socket [ws], for a room that
    exists: the handler goes on listening; the room's content becomes the
    ["content"] of the message (the empty string when there is none), its
    creation time stays; [{"type": "sync", "content": ...}] is written once
    to every member other than [ws] and never to [ws]; the members whose
    write raised are removed and no other; no other room changes. *)
Theorem clipboard_message_fans_out net ws code fields w r :
  eq_str (dict_get fields "type" JNull) "clipboard" = true →
  rooms w !! code = Some r →
  let v := dict_get fields "content" (JStr "") in
  let out := ws_turn net ws code (Received (JObj fields)) w in
  fst out = Ok Listening ∧
  ∃ r' evs,
    rooms (snd out) !! code = Some r' ∧
    last_content r' = v ∧ created_at r' = created_at r ∧
    (∀ c, c ∈ clients r' ↔ c ∈ clients r ∧ (c = ws ∨ ¬ send_fails net c)) ∧
    wire (snd out) = wire w ++ evs ∧
    (∀ c, c ∈ clients r → c ≠ ws →
          written_to c evs = [JObj [("type", JStr "sync"); ("content", v)]]) ∧
    written_to ws evs = [] ∧
    (∀ code', code' ≠ code → rooms (snd out) !! code' = rooms w !! code').
Proof.
  intros Hty Hr v out. subst out.
  rewrite (ws_turn_clipboard _ _ _ _ _ _ Hty Hr). fold v. simpl. split; [done |].
  eexists _, _. split_and!; [apply lookup_insert_eq | done | done | | done | | |].
  - intros c. simpl.
    rewrite elem_of_difference, elem_of_list_to_set, elem_of_casualties. split.
    + intros [Hc Hn]. split; [done |].
      destruct (decide (c = ws)) as [->|Hne]; [by left | right].
      intros Hf. apply Hn. split_and!; [done | congruence | done].
    + intros [Hc Hok]. split; [done |]. intros (Hf & Hex & _).
      destruct Hok as [->|Hok]; [by apply Hex | by apply Hok].
  - intros c Hc Hne. rewrite written_to_attempts by apply targets_NoDup.
    rewrite decide_True; [done |]. apply elem_of_targets. split; [congruence | done].
  - apply written_to_attempts_notin. intros [Hne _]%elem_of_targets. by apply Hne.
  - intros code' Hne. by apply lookup_insert_ne.
Qed.

Lemma clipboard_message_fans_out_witness :
  let fields := [("type", JStr "clipboard"); ("content", JStr "world")] in
  (eq_str (dict_get fields "type" JNull) "clipboard" = true ∧
   rooms lobby !! "AB12CD" = Some trio) ∧
  fst (ws_turn (broken 3) 1%nat "AB12CD" (Received (JObj fields)) lobby) = Ok Listening.
Proof.
  intros fields.
  assert (Hty : eq_str (dict_get fields "type" JNull) "clipboard" = true) by reflexivity.
  assert (Hr : rooms lobby !! "AB12CD" = Some trio) by reflexivity.
  split; [done |].
  exact (proj1 (clipboard_message_fans_out (broken 3) 1%nat "AB12CD" fields lobby trio Hty Hr)).
Defined.

(** X5. A message of type ["clipboard"] on a socket whose room is no
    longer in the registry: the assignment to the room's content raises
    [KeyError], which is not caught; nothing is written and nothing
    changes. *)
Theorem clipboard_message_for_vanished_room net ws code fields w :
  eq_str (dict_get fields "type" JNull) "clipboard" = true →
  rooms w !! code = None →
  ws_turn net ws code (Received (JObj fields)) w = (Raise KeyError, w).
Proof.
  intros Hty Hr. unfold ws_turn, receive_json, py_get. unfold_monad. rewrite Hty.
  unfold set_last_content, update_room. by rewrite Hr.
Qed.

Lemma clipboard_message_for_vanished_room_witness :
  let fields := [("type", JStr "clipboard"); ("content", JStr "world")] in
  let swept := run (two_joined ++ [CreateRoom 90000 90000 "ZZ99ZZ" []]) boot in
  (eq_str (dict_get fields "type" JNull) "clipboard" = true ∧
   rooms swept !! "AB12CD" = None) ∧
  ws_turn healthy 1%nat "AB12CD" (Received (JObj fields)) swept = (Raise KeyError, swept).
Proof.
  intros fields swept.
  assert (Hty : eq_str (dict_get fields "type" JNull) "clipboard" = true) by reflexivity.
  assert (Hr : rooms swept !! "AB12CD" = None) by (vm_compute; reflexivity).
  split; [exact (conj Hty Hr) |].
  exact (clipboard_message_for_vanished_room healthy 1%nat "AB12CD" fields swept Hty Hr).
Defined.

(** ** Joining and leaving *)

Lemma ws_turn_leave net ws code w r :
  rooms w !! code = Some r → ws ∈ clients r →
  ws_turn net ws code (RecvRaises WebSocketDisconnect) w =
  (Ok Returned,
   mkWorld (<[code := mkRoom (clients r ∖ {[ws]}) (last_content r) (created_at r)]> (rooms w))
           (wire w)).
Proof.
  intros Hr Hin. rewrite ws_turn_disconnect. unfold_monad.
  by rewrite (clients_remove_member _ _ _ _ Hr Hin).
Qed.

(** X6. The disconnect of a socket that is a member of its room: the
    handler returns normally; the room loses exactly that socket and stays
    in the registry, with its content and creation time, even when no member
    is left; no other room changes and nothing is written. *)
Theorem leave_removes_member net ws code w r :
  rooms w !! code = Some r → ws ∈ clients r →
  ws_turn net ws code (RecvRaises WebSocketDisconnect) w =
  (Ok Returned,
   mkWorld (<[code := mkRoom (clients r ∖ {[ws]}) (last_content r) (created_at r)]> (rooms w))
           (wire w)).
Proof. apply ws_turn_leave. Qed.

Lemma leave_removes_member_witness :
  let alone := mkWorld {["AB12CD" := mkRoom {[5%nat]} (JStr "kept") 1000%float]} [] in
  rooms (snd (ws_turn healthy 5%nat "AB12CD" (RecvRaises WebSocketDisconnect) alone))
    !! "AB12CD" = Some (mkRoom ∅ (JStr "kept") 1000%float).
Proof.
  intros alone.
  assert (Hr : rooms alone !! "AB12CD" = Some (mkRoom {[5%nat]} (JStr "kept") 1000%float))
    by reflexivity.
  assert (Hin : 5%nat ∈ clients (mkRoom {[5%nat]} (JStr "kept") 1000%float))
    by (by vm_compute).
  rewrite (leave_removes_member healthy 5%nat "AB12CD" alone _ Hr Hin).
  vm_compute. reflexivity.
Defined.

(** X7. Join, then leave: when a new socket joins a room (its replay, if
    any, is written without error) and then disconnects, the registry is
    back to what it was before the join. *)
Theorem join_then_leave net net' ws code w r :
  rooms w !! code = Some r → ws ∉ clients r →
  tx_accept net ws = Done → ¬ send_fails net ws →
  let joined := snd (ws_connect net ws code w) in
  fst (ws_connect net ws code w) = Ok Listening ∧
  member_of ws code joined ∧
  fst (ws_turn net' ws code (RecvRaises WebSocketDisconnect) joined) = Ok Returned ∧
  rooms (snd (ws_turn net' ws code (RecvRaises WebSocketDisconnect) joined)) = rooms w.
Proof.
  intros Hr Hout Ha Hok joined. subst joined.
  destruct (ws_connect_accepted net ws code w r Hr Ha) as (res & s & -> & _ & Hs & Hres).
  assert (res = Ok Listening) as -> by (destruct Hres as [|[_ ?]]; done).
  rewrite (Hs eq_refl). simpl.
  set (r1 := with_clients r ({[ws]} ∪ clients r)).
  set (w1 := mkWorld _ _).
  assert (Hr1 : rooms w1 !! code = Some r1) by apply lookup_insert_eq.
  assert (Hin : ws ∈ clients r1) by (simpl; set_solver).
  split_and!; [done | by exists r1 | |].
  - by rewrite (ws_turn_leave net' ws code w1 r1 Hr1 Hin).
  - rewrite (ws_turn_leave net' ws code w1 r1 Hr1 Hin). simpl.
    rewrite insert_insert_eq.
    replace (({[ws]} ∪ clients r) ∖ {[ws]}) with (clients r) by set_solver.
    rewrite room_eta. by apply insert_id.
Qed.

Lemma join_then_leave_witness :
  (rooms lobby !! "AB12CD" = Some trio ∧ (9%nat ∉ clients trio) ∧
   tx_accept healthy 9%nat = Done ∧ ¬ send_fails healthy 9%nat) ∧
  rooms (snd (ws_turn healthy 9%nat "AB12CD" (RecvRaises WebSocketDisconnect)
                (snd (ws_connect healthy 9%nat "AB12CD" lobby)))) = rooms lobby.
Proof.
  assert (Hr : rooms lobby !! "AB12CD" = Some trio) by reflexivity.
  assert (Hout : 9%nat ∉ clients trio) by (by vm_compute).
  assert (Ha : tx_accept healthy 9%nat = Done) by reflexivity.
  assert (Hok : ¬ send_fails healthy 9%nat) by (intros H; by apply H).
  split; [exact (conj Hr (conj Hout (conj Ha Hok))) |].
  exact (proj2 (proj2 (proj2 (join_then_leave healthy healthy 9%nat "AB12CD" lobby trio
                                Hr Hout Ha Hok)))).
Defined.

(** X8. A socket opened for a code that is not in the registry is closed
    with code 1008 and reason "Room not found": it is not accepted, the
    messages it would send are not read, and the registry is untouched. *)
Theorem unknown_room_is_refused net ws code arrivals w :
  rooms w !! code = None →
  websocket_endpoint net ws code arrivals w =
  (Ok Returned, mkWorld (rooms w) (wire w ++ [EvClose ws 1008 "Room not found"])).
Proof.
  intros Hr. unfold websocket_endpoint. unfold_monad.
  by rewrite (ws_connect_no_room _ _ _ _ Hr).
Qed.

Lemma unknown_room_is_refused_witness :
  rooms lobby !! "ZZZZZZ" = None ∧
  wire (snd (websocket_endpoint healthy 9%nat "ZZZZZZ"
               [(healthy, Received (JObj [("type", JStr "clipboard")]))] lobby))
  = [EvClose 9%nat 1008 "Room not found"].
Proof.
  assert (Hr : rooms lobby !! "ZZZZZZ" = None) by reflexivity.
  split; [exact Hr |].
  rewrite (unknown_room_is_refused healthy 9%nat "ZZZZZZ" _ lobby Hr). reflexivity.
Defined.

(** X9. A socket whose accept raises is not registered: the exception
    leaves the handler before the socket is added, and nothing changes. *)
Theorem failed_accept_registers_nothing net ws code arrivals w r e :
  rooms w !! code = Some r → tx_accept net ws = Fails e →
  websocket_endpoint net ws code arrivals w = (Raise e, w).
Proof.
  intros Hr Ha. unfold websocket_endpoint. unfold_monad.
  by rewrite (ws_connect_refused _ _ _ _ _ _ Hr Ha).
Qed.

Lemma failed_accept_registers_nothing_witness :
  let deaf := mkTransport (fun _ => Done) (fun _ => Fails (OtherError "RuntimeError")) in
  (rooms lobby !! "AB12CD" = Some trio ∧
   tx_accept deaf 9%nat = Fails (OtherError "RuntimeError")) ∧
  websocket_endpoint deaf 9%nat "AB12CD" [] lobby = (Raise (OtherError "RuntimeError"), lobby).
Proof.
  intros deaf.
  assert (Hr : rooms lobby !! "AB12CD" = Some trio) by reflexivity.
  assert (Ha : tx_accept deaf 9%nat = Fails (OtherError "RuntimeError")) by reflexivity.
  split; [exact (conj Hr Ha) |].
  exact (failed_accept_registers_nothing deaf 9%nat "AB12CD" [] lobby trio _ Hr Ha).
Defined.

(** X10. An accepted socket whose replay is written without error, or
    that has no replay to get, is listening and is a member; the members
    that were there stay, the content and the creation time of the room
    stay, and no other room changes. *)
Theorem join_registers_member net ws code w r :
  rooms w !! code = Some r → tx_accept net ws = Done →
  truthy (last_content r) = false ∨ ¬ send_fails net ws →
  ws_connect net ws code w =
  (Ok Listening,
   mkWorld (<[code := mkRoom ({[ws]} ∪ clients r) (last_content r) (created_at r)]> (rooms w))
           (wire w ++ EvAccept ws ::
              if truthy (last_content r)
              then [EvSend ws (JObj [("type", JStr "sync"); ("content", last_content r)])
                           Done]
              else [])).
Proof.
  intros Hr Ha Hok.
  destruct (ws_connect_accepted net ws code w r Hr Ha) as (res & s & -> & _ & Hs & Hres).
  assert (res = Ok Listening) as ->.
  { destruct Hres as [|[Ht Hf]]; [done |]. destruct Hok as [Hn|Hn]; [congruence | done]. }
  rewrite (Hs eq_refl). unfold with_clients. do 3 f_equal.
  destruct (truthy (last_content r)) eqn:Ht; [| done].
  destruct Hok as [|Hn]; [done |]. unfold send_fails in Hn.
  destruct (tx_send net ws); [done | by destruct Hn].
Qed.

Lemma join_registers_member_witness :
  (rooms lobby !! "AB12CD" = Some trio ∧ tx_accept healthy 9%nat = Done ∧
   (truthy (last_content trio) = false ∨ ¬ send_fails healthy 9%nat)) ∧
  fst (ws_connect healthy 9%nat "AB12CD" lobby) = Ok Listening.
Proof.
  assert (Hr : rooms lobby !! "AB12CD" = Some trio) by reflexivity.
  assert (Ha : tx_accept healthy 9%nat = Done) by reflexivity.
  assert (Hok : truthy (last_content trio) = false ∨ ¬ send_fails healthy 9%nat).
  { right. intros H. by apply H. }
  split; [exact (conj Hr (conj Ha Hok)) |].
  exact (f_equal fst (join_registers_member healthy 9%nat "AB12CD" lobby trio Hr Ha Hok)).
Defined.

(** X11. An accepted socket whose replay raises.  When the exception is
    [WebSocketDisconnect] the [except] branch removes the socket again and
    the handler returns.  Any other exception leaves the handler, and the
    socket stays in the member set of the room although nobody serves it. *)
Theorem failed_replay net ws code w r e :
  rooms w !! code = Some r → tx_accept net ws = Done →
  truthy (last_content r) = true → tx_send net ws = Fails e →
  let out := ws_connect net ws code w in
  wire (snd out) =
    wire w ++ [EvAccept ws;
               EvSend ws (JObj [("type", JStr "sync"); ("content", last_content r)])
                      (Fails e)] ∧
  (e = WebSocketDisconnect →
     fst out = Ok Returned ∧ ¬ member_of ws code (snd out)) ∧
  (e ≠ WebSocketDisconnect →
     fst out = Raise e ∧ member_of ws code (snd out)).
Proof.
  intros Hr Ha Ht Hs out. subst out.
  unfold ws_connect. unfold_monad. rewrite (room_in_present _ _ _ Hr).
  simpl. unfold ws_accept, emit. rewrite Ha.
  unfold clients_add, update_room. simpl. rewrite Hr.
  unfold get_room. simpl. rewrite lookup_insert_eq. simpl. rewrite Ht.
  cbn [rooms wire]. rewrite lookup_insert_eq. unfold send_json, emit. unfold_monad.
  simpl. rewrite Hs. simpl. rewrite <- app_assoc. simpl.
  destruct (decide (e = WebSocketDisconnect)) as [->|Hne].
  - simpl. unfold clients_remove, get_room. unfold_monad. simpl.
    rewrite lookup_insert_eq. rewrite bool_decide_eq_true_2 by set_solver.
    unfold clients_discard, update_room. simpl. rewrite lookup_insert_eq. simpl.
    split_and!; [done | | done]. intros _. split; [done |].
    intros (r' & Hr' & Hin). simpl in Hr'. rewrite lookup_insert_eq in Hr'.
    simplify_eq. simpl in Hin. set_solver.
  - assert (Hraise : on_exception code ws e = raise e) by (by destruct e).
    rewrite Hraise. unfold_monad. simpl. split_and!; [done | done |].
    intros _. split; [done |]. eexists. split; [apply lookup_insert_eq |].
    simpl. set_solver.
Qed.

Lemma failed_replay_witness :
  (rooms lobby !! "AB12CD" = Some trio ∧ tx_accept (broken 9) 9%nat = Done ∧
   truthy (last_content trio) = true ∧
   tx_send (broken 9) 9%nat = Fails (OtherError "RuntimeError")) ∧
  fst (ws_connect (broken 9) 9%nat "AB12CD" lobby) = Raise (OtherError "RuntimeError") ∧
  member_of 9%nat "AB12CD" (snd (ws_connect (broken 9) 9%nat "AB12CD" lobby)).
Proof.
  assert (Hr : rooms lobby !! "AB12CD" = Some trio) by reflexivity.
  assert (Ha : tx_accept (broken 9) 9%nat = Done) by reflexivity.
  assert (Ht : truthy (last_content trio) = true) by reflexivity.
  assert (Hs : tx_send (broken 9) 9%nat = Fails (OtherError "RuntimeError")) by reflexivity.
  split; [exact (conj Hr (conj Ha (conj Ht Hs))) |].
  apply (proj2 (proj2 (failed_replay (broken 9) 9%nat "AB12CD" lobby trio _ Hr Ha Ht Hs))).
  discriminate.
Defined.

(** X12. The receive loop ends with the handler: once a message made it
    return or raise, what arrives afterwards is not handled; as long as it
    is listening, the loop over a sequence of arrivals is the loop over its
    parts, one after the other. *)
Theorem ws_loop_stops_with_handler ws code pre rest w :
  (fst (ws_loop ws code pre w) = Ok Listening →
   ws_loop ws code (pre ++ rest) w = ws_loop ws code rest (snd (ws_loop ws code pre w))) ∧
  (fst (ws_loop ws code pre w) ≠ Ok Listening →
   ws_loop ws code (pre ++ rest) w = ws_loop ws code pre w).
Proof.
  revert w. induction pre as [|[net i] pre IH]; intros w.
  - simpl. unfold_monad. simpl. split; [done | by intros H].
  - simpl. unfold_monad.
    destruct (ws_turn net ws code i w) as [[[]|e] w1]; simpl.
    + apply IH.
    + split; [done | done].
    + split; [done | done].
Qed.

Lemma ws_loop_stops_with_handler_witness :
  let bye := [(healthy, RecvRaises WebSocketDisconnect)] in
  let more := [(healthy, Received (JObj [("type", JStr "clipboard"); ("content", JStr "late")]))] in
  fst (ws_loop 1%nat "AB12CD" bye lobby) ≠ Ok Listening ∧
  ws_loop 1%nat "AB12CD" (bye ++ more) lobby = ws_loop 1%nat "AB12CD" bye lobby.
Proof.
  intros bye more.
  assert (H : fst (ws_loop 1%nat "AB12CD" bye lobby) ≠ Ok Listening)
    by (vm_compute; discriminate).
  split; [exact H |].
  exact (proj2 (ws_loop_stops_with_handler 1%nat "AB12CD" bye more lobby) H).
Defined.

(** ** Invariants of histories *)

Lemma well_shaped_attempts net v (l : list conn) :
  Forall well_shaped (map (attempt net v) l).
Proof. apply Forall_fmap, Forall_forall. intros c _. by exists v. Qed.

Lemma created_at_insert (m : gmap string Room) code r r' code' :
  m !! code = Some r → created_at r' = created_at r →
  created_at <$> (<[code := r']> m) !! code' = created_at <$> m !! code'.
Proof.
  intros Hr Hc. destruct (decide (code = code')) as [<-|Hne].
  - rewrite lookup_insert_eq, Hr. simpl. by f_equal.
  - by rewrite lookup_insert_ne.
Qed.

(** One request: the wire grows by well-shaped events, and unless the
    request creates a room every code keeps its room and creation time. *)
Lemma serve_shape rq w :
  (∃ evs, wire (serve rq w) = wire w ++ evs ∧ Forall well_shaped evs) ∧
  (¬ creates rq →
   ∀ code, created_at <$> rooms (serve rq w) !! code = created_at <$> rooms w !! code).
Proof.
  assert (Hsame : ∀ w0 : world,
    (∃ evs, wire w0 = wire w0 ++ evs ∧ Forall well_shaped evs)).
  { intros w0. exists []. by rewrite app_nil_r. }
  destruct rq as [now stamp first draws | net data | net c code | net c code i]; simpl.
  - split; [| intros H; by destruct H].
    unfold create_room. unfold_monad.
    destruct (cleanup_old_rooms_run now w) as (kept & -> & _).
    destruct (regenerate_reads draws first (mkWorld kept (wire w))) as (found & -> & _).
    destruct found; simpl; exists []; by rewrite app_nil_r.
  - destruct (rooms w !! room_code data) as [r|] eqn:Hr.
    + rewrite (sync_clipboard_present _ _ _ _ Hr). simpl. split.
      * eexists. split; [done | apply well_shaped_attempts].
      * intros _ code. by apply (created_at_insert _ _ r).
    + rewrite (sync_clipboard_absent _ _ _ Hr). by split.
  - destruct (rooms w !! code) as [r|] eqn:Hr.
    + destruct (tx_accept net c) as [|e] eqn:Ha.
      * destruct (ws_connect_accepted net c code w r Hr Ha) as (res & s & -> & _).
        simpl. split.
        -- eexists. split; [done |]. apply Forall_cons. split; [done |].
           destruct (truthy (last_content r)); [| done].
           apply Forall_cons. split; [by eexists | done].
        -- intros _ code'. by apply (created_at_insert _ _ r).
      * rewrite (ws_connect_refused _ _ _ _ _ _ Hr Ha). by split.
    + rewrite (ws_connect_no_room _ _ _ _ Hr). simpl. split; [| done].
      eexists. split; [done |]. by apply Forall_cons.
  - destruct i as [data | e].
    + destruct data as [| | | | | |fields];
        try (rewrite ws_turn_not_dict by done; by split).
      destruct (eq_str (dict_get fields "type" JNull) "clipboard") eqn:Hty.
      * destruct (rooms w !! code) as [r|] eqn:Hr.
        -- rewrite (ws_turn_clipboard _ _ _ _ _ _ Hty Hr). simpl. split.
           ++ eexists. split; [done | apply well_shaped_attempts].
           ++ intros _ code'. by apply (created_at_insert _ _ r).
        -- rewrite (ws_turn_clipboard_no_room _ _ _ _ _ Hty Hr). by split.
      * rewrite (ws_turn_other_type _ _ _ _ _ Hty). by split.
    + destruct (decide (e = WebSocketDisconnect)) as [->|He].
      * rewrite ws_turn_disconnect. unfold_monad.
        destruct (rooms w !! code) as [r|] eqn:Hr.
        -- destruct (decide (c ∈ clients r)) as [Hc|Hc].
           ++ rewrite (clients_remove_member _ _ _ _ Hr Hc). simpl. split; [done |].
              intros _ code'. by apply (created_at_insert _ _ r).
           ++ rewrite (clients_remove_stranger _ _ _ _ Hr Hc). by split.
        -- rewrite (clients_remove_no_room _ _ _ Hr). by split.
      * rewrite ws_turn_recv_error by done. by split.
Qed.

(** X13. Only the creation of a room adds rooms, deletes rooms or sets a
    creation time: over any history without a room creation, every code
    that had a room still has one, created at the same time, and no code
    gained a room. *)
Theorem rooms_only_change_on_creation history w :
  Forall (fun rq => ¬ creates rq) history →
  ∀ code, created_at <$> rooms (run history w) !! code = created_at <$> rooms w !! code.
Proof.
  revert w. induction history as [|rq history IH]; intros w Hall code; [done |].
  apply Forall_cons in Hall as [Hrq Hall]. simpl.
  rewrite IH by done. by apply serve_shape.
Qed.

Lemma rooms_only_change_on_creation_witness :
  let history := [WsMessage healthy 1%nat "AB12CD" (RecvRaises WebSocketDisconnect);
                  WsMessage healthy 2%nat "AB12CD" (RecvRaises WebSocketDisconnect);
                  WsMessage healthy 3%nat "AB12CD" (RecvRaises WebSocketDisconnect);
                  SyncClipboard healthy (mkClipboardData "AB12CD" "")] in
  created_at <$> rooms (run history lobby) !! "AB12CD" = Some 1000%float.
Proof.
  intros history.
  assert (Hall : Forall (fun rq => ¬ creates rq) history).
  { repeat constructor; simpl; tauto. }
  rewrite (rooms_only_change_on_creation history lobby Hall "AB12CD"). reflexivity.
Defined.

(** X14. Whatever the requests, the wire only grows, and what is put on a
    socket is an accept, a close with code 1008 "Room not found", or a
    message of the shape [{"type": "sync", "content": ...}]. *)
Theorem wire_grows_by_sync_messages history w :
  ∃ evs, wire (run history w) = wire w ++ evs ∧ Forall well_shaped evs.
Proof.
  revert w. induction history as [|rq history IH]; intros w; simpl.
  - exists []. by rewrite app_nil_r.
  - destruct (serve_shape rq w) as [(evs1 & Hw1 & Hs1) _].
    destruct (IH (serve rq w)) as (evs2 & Hw2 & Hs2).
    exists (evs1 ++ evs2). rewrite Hw2, Hw1, app_assoc. split; [done |].
    by apply Forall_app.
Qed.

(** X15. A socket that was never opened is a member of no room and is
    never written to, whatever else the server is asked. *)
Theorem unopened_socket_is_left_alone history a :
  Forall (fun rq => ¬ opens a rq) history →
  (∀ code, ¬ member_of a code (run history boot)) ∧
  written_to a (wire (run history boot)) = [].
Proof.
  intros Hall. split.
  - intros code Hm. apply (boot_empty a code). by apply (run_members a code history).
  - rewrite run_quiet; [done | apply boot_empty | done].
Qed.

Lemma unopened_socket_is_left_alone_witness :
  let history := two_joined ++ [SyncClipboard healthy (mkClipboardData "AB12CD" "hello")] in
  written_to 3%nat (wire (run history boot)) = [].
Proof.
  intros history.
  assert (Hall : Forall (fun rq => ¬ opens 3%nat rq) history).
  { repeat constructor; simpl; try tauto; lia. }
  exact (proj2 (unopened_socket_is_left_alone history 3%nat Hall)).
Defined.

(** X16. The last push wins for a late joiner: after two pushes to a
    room, a socket that joins is sent the content of the second push, and
    nothing when that content is the empty string. *)
Theorem late_joiner_gets_last_push net1 net2 net d1 d2 c w r :
  rooms w !! room_code d1 = Some r → room_code d2 = room_code d1 →
  tx_accept net c = Done →
  let w2 := snd (sync_clipboard net2 d2 (snd (sync_clipboard net1 d1 w))) in
  wire (snd (ws_connect net c (room_code d1) w2)) =
  wire w2 ++ EvAccept c ::
    (if String.eqb (content d2) ""
     then []
     else [EvSend c (JObj [("type", JStr "sync"); ("content", JStr (content d2))])
                  (tx_send net c)]).
Proof.
  intros Hr Hcode Ha w2. subst w2.
  rewrite (sync_clipboard_present _ _ _ _ Hr). simpl.
  set (w1 := mkWorld _ _).
  assert (Hr1 : rooms w1 !! room_code d2 = Some
            (mkRoom (clients r ∖ list_to_set (casualties net1 None (clients r)))
                    (JStr (content d1)) (created_at r))).
  { rewrite Hcode. apply lookup_insert_eq. }
  rewrite (sync_clipboard_present _ _ _ _ Hr1). simpl.
  set (w2 := mkWorld _ _).
  eassert (Hr2 : rooms w2 !! room_code d1 = Some _).
  { rewrite <- Hcode. apply lookup_insert_eq. }
  destruct (ws_connect_accepted net c (room_code d1) w2 _ Hr2 Ha) as (res & s & -> & _).
  simpl. by destruct (String.eqb (content d2) "").
Qed.

Lemma late_joiner_gets_last_push_witness :
  written_to 9%nat
    (wire (snd (ws_connect healthy 9%nat "AB12CD"
                  (snd (sync_clipboard healthy (mkClipboardData "AB12CD" "second")
                          (snd (sync_clipboard healthy (mkClipboardData "AB12CD" "first")
                                  lobby)))))))
  = [JObj [("type", JStr "sync"); ("content", JStr "second")]].
Proof.
  assert (Hr : rooms lobby !! room_code (mkClipboardData "AB12CD" "first") = Some trio)
    by reflexivity.
  assert (Ha : tx_accept healthy 9%nat = Done) by reflexivity.
  pose proof (late_joiner_gets_last_push healthy healthy healthy
                (mkClipboardData "AB12CD" "first") (mkClipboardData "AB12CD" "second")
                9%nat lobby trio Hr eq_refl Ha) as H.
  cbn [room_code content] in H. rewrite H.
  vm_compute. reflexivity.
Defined.

(** ** What a broadcast leaves alone *)

(** X17. A broadcast never changes a content or a creation time, never
    adds a member, never removes the excluded socket, and touches no room
    but its own. *)
Theorem broadcast_preserves net code x exclude w r :
  rooms w !! code = Some r →
  let w' := snd (broadcast_to_room net code x exclude w) in
  ∃ r', rooms w' !! code = Some r' ∧
        last_content r' = last_content r ∧ created_at r' = created_at r ∧
        clients r' ⊆ clients r ∧
        (∀ b, exclude = Some b → b ∈ clients r → b ∈ clients r') ∧
        (∀ code', code' ≠ code → rooms w' !! code' = rooms w !! code').
Proof.
  intros Hr w'. subst w'. rewrite (broadcast_present _ _ _ _ _ _ Hr). simpl.
  eexists. split_and!; [apply lookup_insert_eq | done | done | | |].
  - simpl. set_solver.
  - intros b -> Hb. simpl. apply elem_of_difference. split; [done |].
    intros (_ & Hne & _)%elem_of_list_to_set%elem_of_casualties. by apply Hne.
  - intros code' Hne. by apply lookup_insert_ne.
Qed.

Lemma broadcast_preserves_witness :
  rooms lobby !! "AB12CD" = Some trio ∧
  ∃ r', rooms (snd (broadcast_to_room (broken 2) "AB12CD" (JStr "X") (Some 2%nat) lobby))
          !! "AB12CD" = Some r' ∧
        last_content r' = JStr "old" ∧ 2%nat ∈ clients r'.
Proof.
  assert (Hr : rooms lobby !! "AB12CD" = Some trio) by reflexivity.
  split; [exact Hr |].
  destruct (broadcast_preserves (broken 2) "AB12CD" (JStr "X") (Some 2%nat) lobby trio Hr)
    as (r' & Hr' & Hlc & _ & _ & Hex & _).
  exists r'. split_and!; [exact Hr' | exact Hlc |].
  apply (Hex 2%nat eq_refl). by vm_compute.
Defined.

(** X18. After a broadcast every member left, other than the excluded
    one, is a socket whose write succeeded; so a second broadcast over the
    same transport, with the same exclusion, removes nobody. *)
Theorem pruning_is_idempotent net code x x' exclude w r :
  rooms w !! code = Some r →
  let w1 := snd (broadcast_to_room net code x exclude w) in
  (∀ c, member_of c code w1 → Some c ≠ exclude → ¬ send_fails net c) ∧
  rooms (snd (broadcast_to_room net code x' exclude w1)) = rooms w1.
Proof.
  intros Hr w1. subst w1. rewrite (broadcast_present _ _ _ _ _ _ Hr). simpl.
  set (s1 := clients r ∖ list_to_set (casualties net exclude (clients r))).
  set (w1 := mkWorld _ _).
  assert (Hr1 : rooms w1 !! code = Some (with_clients r s1)) by apply lookup_insert_eq.
  assert (Hsurv : ∀ c, c ∈ s1 → Some c ≠ exclude → ¬ send_fails net c).
  { intros c [Hc Hn]%elem_of_difference Hne Hf. apply Hn.
    apply elem_of_list_to_set, elem_of_casualties. done. }
  split.
  - intros c (r' & Hr' & Hc) Hne. rewrite Hr1 in Hr'. simplify_eq. by apply Hsurv.
  - rewrite (broadcast_present _ _ _ _ _ _ Hr1). simpl.
    assert (Hnone : casualties net exclude s1 = []).
    { apply elem_of_nil_inv. intros c (Hf & Hne & Hc)%elem_of_casualties.
      by apply (Hsurv c). }
    rewrite Hnone. simpl. rewrite difference_empty_L.
    apply insert_id. done.
Qed.

Lemma pruning_is_idempotent_witness :
  rooms lobby !! "AB12CD" = Some trio ∧
  rooms (snd (broadcast_to_room (broken 1) "AB12CD" (JStr "again") None
                (snd (broadcast_to_room (broken 1) "AB12CD" (JStr "X") None lobby))))
  = rooms (snd (broadcast_to_room (broken 1) "AB12CD" (JStr "X") None lobby)).
Proof.
  assert (Hr : rooms lobby !! "AB12CD" = Some trio) by reflexivity.
  split; [exact Hr |].
  exact (proj2 (pruning_is_idempotent (broken 1) "AB12CD" (JStr "X") (JStr "again") None
                  lobby trio Hr)).
Defined.

Lemma length_split_by_outcome net (l : list conn) :
  (length (filter (fun c => ¬ send_fails net c) l) + length (filter (send_fails net) l)
   = length l)%nat.
Proof.
  induction l as [|c l IH]; [done |].
  rewrite !filter_cons. destruct (decide (send_fails net c)) as [Hf|Hok].
  - rewrite decide_False by (intros H; by apply H). simpl. lia.
  - rewrite decide_True by done. simpl. lia.
Qed.

Lemma targets_none (s : gset conn) : targets None s = elements s.
Proof.
  unfold targets. induction (elements s) as [|c l IH]; [done |].
  rewrite filter_cons_True by done. by f_equal.
Qed.

(** X19. The ["devices"] number a push answers with is the number of
    sync messages that push delivered: the writes it made that did not
    raise. *)
Theorem devices_counts_deliveries net data w r :
  rooms w !! room_code data = Some r →
  ∃ evs, wire (snd (sync_clipboard net data w)) = wire w ++ evs ∧
         fst (sync_clipboard net data w) =
         Ok (JObj [("status", JStr "synced");
                   ("devices", JInt (Z.of_nat (successes evs)))]).
Proof.
  intros Hr. rewrite (sync_clipboard_present _ _ _ _ Hr). simpl.
  eexists. split; [done |]. do 6 f_equal.
  rewrite size_after_pruning, successes_attempts.
  pose proof (length_split_by_outcome net (targets None (clients r))) as Hsplit.
  assert (Hall : length (targets None (clients r)) = size (clients r)).
  { by rewrite targets_none. }
  unfold delivered_count, pruned_count, casualties. lia.
Qed.

Lemma devices_counts_deliveries_witness :
  rooms lobby !! "AB12CD" = Some trio ∧
  ∃ evs, wire (snd (sync_clipboard (broken 1) (mkClipboardData "AB12CD" "hello") lobby))
         = wire lobby ++ evs ∧
         fst (sync_clipboard (broken 1) (mkClipboardData "AB12CD" "hello") lobby) =
         Ok (JObj [("status", JStr "synced");
                   ("devices", JInt (Z.of_nat (successes evs)))]).
Proof.
  assert (Hr : rooms lobby !! room_code (mkClipboardData "AB12CD" "hello") = Some trio)
    by reflexivity.
  split; [exact Hr |].
  exact (devices_counts_deliveries (broken 1) (mkClipboardData "AB12CD" "hello") lobby trio Hr).
Defined.

(** ** Sweeping and creating rooms *)

(** X20. Sweeping twice at the same reading of the clock is sweeping
    once: the second sweep finds nothing to delete and, like the first,
    raises nothing. *)
Theorem cleanup_is_idempotent now w :
  cleanup_old_rooms now (snd (cleanup_old_rooms now w)) =
  (Ok tt, snd (cleanup_old_rooms now w)).
Proof.
  destruct (cleanup_old_rooms_run now w) as (kept & -> & Hkept). simpl.
  destruct (cleanup_old_rooms_run now (mkWorld kept (wire w))) as (kept' & -> & Hkept').
  simpl in *. do 2 f_equal. apply map_eq. intros code.
  rewrite Hkept', Hkept. destruct (rooms w !! code) as [r|]; [| done].
  destruct (is_expired now r) eqn:He; [done |]. by rewrite He.
Qed.

(** X21. [create_room] never raises and writes nothing.  When it answers,
    the code it answers with was not the code of a room that survived the
    sweep; that code now names a room without members, with the empty
    string as content, created at the second reading of the clock; every
    other code has the room the sweep left it, unchanged. *)
Theorem create_room_adds_fresh_room now stamp first draws w :
  let out := create_room now stamp first draws w in
  let swept code := match rooms w !! code with
                    | Some r => if is_expired now r then None else Some r
                    | None => None
                    end in
  wire (snd out) = wire w ∧
  ∃ found, fst out = Ok found ∧
    match found with
    | Some resp =>
        ∃ code, resp = JObj [("room_code", JStr code)] ∧
                swept code = None ∧
                rooms (snd out) !! code = Some (mkRoom ∅ (JStr "") stamp) ∧
                ∀ code', code' ≠ code → rooms (snd out) !! code' = swept code'
    | None => ∀ code', rooms (snd out) !! code' = swept code'
    end.
Proof.
  intros out swept. subst out. unfold create_room. unfold_monad.
  destruct (cleanup_old_rooms_run now w) as (kept & -> & Hkept).
  destruct (regenerate_reads draws first (mkWorld kept (wire w))) as (found & -> & Hfree).
  destruct found as [code|]; simpl.
  - split; [done |]. eexists. split; [done |]. exists code.
    split_and!; [done | | apply lookup_insert_eq |].
    + unfold swept. rewrite <- Hkept. by apply Hfree.
    + intros code' Hne. rewrite lookup_insert_ne by done. apply Hkept.
  - split; [done |]. exists None. split; [done |]. apply Hkept.
Qed.

(** X22. The regeneration loop reads the registry only, and stops at the
    first candidate that is not the code of a room: all candidates before
    the one it returns are taken; it is still running after the candidates
    listed only if all of them are taken. *)
Theorem regenerate_finds_first_free draws : ∀ first w,
  ∃ found, regenerate first draws w = (Ok found, w) ∧
    match found with
    | Some code =>
        ∃ pre post, first :: draws = pre ++ code :: post ∧
                    Forall (fun c => is_Some (rooms w !! c)) pre ∧
                    rooms w !! code = None
    | None => Forall (fun c => is_Some (rooms w !! c)) (first :: draws)
    end.
Proof.
  induction draws as [|next rest IH]; intros first w; simpl; unfold_monad;
    unfold room_in; simpl; case_bool_decide as Hin.
  - exists None. split; [done |]. by apply Forall_cons.
  - exists (Some first). split; [done |]. exists [], [].
    split_and!; [done | done | by apply eq_None_not_Some].
  - destruct (IH next w) as (found & -> & Hfound). exists found. split; [done |].
    destruct found as [code|].
    + destruct Hfound as (pre & post & Heq & Hpre & Hcode).
      exists (first :: pre), post. rewrite Heq. split_and!; [done | | done].
      by apply Forall_cons.
    + by apply Forall_cons.
  - exists (Some first). split; [done |]. exists [], (next :: rest).
    split_and!; [done | done | by apply eq_None_not_Some].
Qed.

(** ** Room codes *)

Lemma byte_in_range (b : Byte.byte) :
  Byte.to_N b ∈ (N.of_nat <$> seq 0 256).
Proof.
  apply list_elem_of_fmap. exists (N.to_nat (Byte.to_N b)).
  split; [by rewrite N2Nat.id |].
  apply elem_of_seq. pose proof (Byte.to_N_bounded b). lia.
Qed.

Lemma forallb_bytes (f : N → bool) (b : Byte.byte) :
  forallb f (N.of_nat <$> seq 0 256) = true → f (Byte.to_N b) = true.
Proof.
  intros H. eapply forallb_forall in H; [exact H |].
  apply list_elem_of_In, byte_in_range.
Qed.

(** Every six-bit group of four bytes is below 64: checked by running
    through the bytes. *)
Lemma groups_in_range (b0 b1 b2 b3 : Byte.byte) :
  Forall (fun i => (i < 64)%N)
         (b64_groups [Byte.to_N b0; Byte.to_N b1; Byte.to_N b2; Byte.to_N b3]).
Proof.
  assert (H1 : ∀ b, (N.shiftr (Byte.to_N b) 2 <? 64)%N
                    && (N.land (Byte.to_N b) 63 <? 64)%N
                    && (N.shiftl (N.land (Byte.to_N b) 3) 4 <? 64)%N = true).
  { intros b.
    apply (forallb_bytes (fun n => (N.shiftr n 2 <? 64)%N && (N.land n 63 <? 64)%N
                                   && (N.shiftl (N.land n 3) 4 <? 64)%N)).
    vm_compute. reflexivity. }
  assert (H2 : ∀ b b', (N.lor (N.shiftl (N.land (Byte.to_N b) 3) 4)
                              (N.shiftr (Byte.to_N b') 4) <? 64)%N
                       && (N.lor (N.shiftl (N.land (Byte.to_N b) 15) 2)
                                 (N.shiftr (Byte.to_N b') 6) <? 64)%N = true).
  { intros b b'.
    apply (forallb_bytes (fun m => (N.lor (N.shiftl (N.land (Byte.to_N b) 3) 4)
                                          (N.shiftr m 4) <? 64)%N
                                   && (N.lor (N.shiftl (N.land (Byte.to_N b) 15) 2)
                                             (N.shiftr m 6) <? 64)%N)).
    apply (forallb_bytes (fun n => forallb (fun m =>
             (N.lor (N.shiftl (N.land n 3) 4) (N.shiftr m 4) <? 64)%N
             && (N.lor (N.shiftl (N.land n 15) 2) (N.shiftr m 6) <? 64)%N)
             (N.of_nat <$> seq 0 256))).
    vm_compute. reflexivity. }
  pose proof (H1 b0) as [[Ha _]%andb_prop Hb]%andb_prop.
  pose proof (H1 b2) as [[_ Hc]%andb_prop _]%andb_prop.
  pose proof (H1 b3) as [[Hd _]%andb_prop He]%andb_prop.
  pose proof (H2 b0 b1) as [Hf _]%andb_prop.
  pose proof (H2 b1 b2) as [_ Hg]%andb_prop.
  cbn [b64_groups]. repeat apply Forall_cons_2; try apply Forall_nil_2;
    by apply N.ltb_lt.
Qed.

(** In upper case, every character of the base64 alphabet is a character
    of room codes: checked by running through the alphabet. *)
Lemma upper_b64_char (i : N) :
  (i < 64)%N → upper_char (b64url_char i) ∈ code_alphabet.
Proof.
  intros Hi.
  assert (Hall : forallb (fun n => bool_decide (upper_char (b64url_char n) ∈ code_alphabet))
                         (N.of_nat <$> seq 0 64) = true) by (vm_compute; reflexivity).
  eapply forallb_forall in Hall.
  - apply bool_decide_eq_true in Hall. exact Hall.
  - apply list_elem_of_In, list_elem_of_fmap. exists (N.to_nat i).
    split; [by rewrite N2Nat.id |]. apply elem_of_seq. lia.
Qed.

(** X23. Whatever four bytes the generator draws, the room code has
    exactly six characters, each an upper-case letter, a digit, [-] or
    [_]. *)
Theorem room_code_has_six_characters b0 b1 b2 b3 :
  String.length (generate_room_code b0 b1 b2 b3) = 6%nat ∧
  Forall (fun c => c ∈ code_alphabet)
         (String.list_ascii_of_string (generate_room_code b0 b1 b2 b3)).
Proof.
  unfold generate_room_code, token_urlsafe.
  pose proof (groups_in_range b0 b1 b2 b3) as Hg.
  cbn [map] in *. cbn [b64_groups] in *. cbn [map take].
  split; [reflexivity |].
  rewrite String.list_ascii_of_string_of_list_ascii.
  repeat match goal with
         | H : Forall _ (_ :: _) |- _ => apply Forall_cons in H as [? H]
         end.
  repeat apply Forall_cons_2; try apply Forall_nil_2; by apply upper_b64_char.
Qed.

(** ** Messages of another type *)

Lemma eq_str_false v s : v ≠ JStr s → eq_str v s = false.
Proof.
  intros Hne. destruct v; simpl; try done.
  apply String.eqb_neq. congruence.
Qed.

(** X24. A message that is a dict whose ["type"] is anything but the
    string ["clipboard"] (another string, a value that is not a string, or
    no ["type"] at all) is passed over: the handler goes on listening,
    nothing is written and nothing changes, whatever else the dict holds. *)
Theorem other_type_messages_are_ignored net ws code fields w :
  dict_get fields "type" JNull ≠ JStr "clipboard" →
  ws_turn net ws code (Received (JObj fields)) w = (Ok Listening, w).
Proof.
  intros Hne. unfold ws_turn, receive_json, py_get. unfold_monad.
  by rewrite (eq_str_false _ _ Hne).
Qed.

Lemma other_type_messages_are_ignored_witness :
  let fields := [("content", JStr "x"); ("type", JStr "Clipboard")] in
  dict_get fields "type" JNull ≠ JStr "clipboard" ∧
  ws_turn healthy 1%nat "AB12CD" (Received (JObj fields)) lobby = (Ok Listening, lobby).
Proof.
  intros fields.
  assert (Hne : dict_get fields "type" JNull ≠ JStr "clipboard") by (vm_compute; discriminate).
  split; [exact Hne |].
  exact (other_type_messages_are_ignored healthy 1%nat "AB12CD" fields lobby Hne).
Defined.
